(** * SIH.py: irrigation estimator and seven-day planner

    A shallow embedding of the computational part of [SIH.py]: the four
    lookup tables, [area_to_sq_m], [simple_eto_mm_per_day],
    [irrigation_need_liters], the status classification and the seven-day
    plan loop of the script body.

    Modelling conventions.
    - Python floats are the real numbers [R]; the integer table entries
      (60, 90, 120) are [Z] and are injected with [IZR] where Python
      promotes them.
    - An exception is a value of [exn]; a computation that may raise has
      type [result A].  Division raises [ZeroDivisionError] on a zero
      divisor and [math.sqrt] raises [ValueError] on a negative argument,
      as in Python.
    - The dictionaries are [gmap string _]; [d[k]] is [dict_get d k] and
      raises [KeyError] on a missing key.
    - NumPy's global generator is a state of an abstract type threaded
      through the script; [datetime.today()] reads a clock given as the
      sequence of its successive answers. *)

From Stdlib Require Import Reals Lra ZArith String List DecimalString.
From stdpp Require Import gmap strings.

Open Scope string_scope.
Open Scope R_scope.

(** ** Exceptions *)

Inductive exn : Set :=
| KeyError
| ValueError
| ZeroDivisionError
| OverflowError.

Inductive result (A : Type) : Type :=
| Ok (a : A)
| Raise (e : exn).

Arguments Ok {A} a.
Arguments Raise {A} e.

#[global] Instance result_ret : MRet result := fun A a => Ok a.

#[global] Instance result_bind : MBind result := fun A B f m =>
  match m with
  | Ok a => f a
  | Raise e => Raise e
  end.

#[global] Instance result_fmap : FMap result := fun A B f m =>
  match m with
  | Ok a => Ok (f a)
  | Raise e => Raise e
  end.

Definition returns {A : Type} (m : result A) : Prop := exists a, m = Ok a.

(** ** Python primitives *)

(** [max(a, b)] keeps its first argument unless the second is strictly
    greater. *)
Definition py_max (a b : R) : R :=
  if Rlt_dec a b then b else a.

(** Float division. *)
Definition py_div (a b : R) : result R :=
  if Req_dec_T b 0 then Raise ZeroDivisionError else Ok (a / b).

(** [math.sqrt]. *)
Definition math_sqrt (x : R) : result R :=
  if Rlt_dec x 0 then Raise ValueError else Ok (sqrt x).

(** [d[k]]. *)
Definition dict_get {V : Type} (d : gmap string V) (k : string) : result V :=
  match d !! k with
  | Some v => Ok v
  | None => Raise KeyError
  end.

(** ** Domain constants *)

Definition SOIL_TARGET_RANGE : gmap string (R * R) :=
  <["रेतीली (Sandy)" := (0.10, 0.18)]>
  (<["दोमट (Loam)" := (0.18, 0.28)]>
  (<["चिकनी (Clay)" := (0.25, 0.35)]> ∅)).

Definition SOIL_RAW_MM_PER_M : gmap string Z :=
  <["रेतीली (Sandy)" := 60%Z]>
  (<["दोमट (Loam)" := 90%Z]>
  (<["चिकनी (Clay)" := 120%Z]> ∅)).

Definition ROOT_DEPTH_M : gmap string R :=
  <["शुरुआती अवस्था" := 0.3]>
  (<["वनस्पति अवस्था" := 0.6]>
  (<["फूल आने की अवस्था" := 0.8]>
  (<["फल आने की अवस्था" := 1.0]> ∅))).

Definition KC_STAGE : gmap string R :=
  <["शुरुआती अवस्था" := 0.6]>
  (<["वनस्पति अवस्था" := 0.95]>
  (<["फूल आने की अवस्था" := 1.05]>
  (<["फल आने की अवस्था" := 0.9]> ∅))).

(** ** Helper functions *)

Definition area_to_sq_m (area_value : R) (unit : string) : R :=
  if String.eqb unit "एकड़" then area_value * 4046.8564224
  else if String.eqb unit "हेक्टेयर" then area_value * 10000.0
  else if String.eqb unit "m²" then area_value
  else area_value.

Definition simple_eto_mm_per_day (tmin_c tmax_c : R) : result R :=
  let tmean := (tmin_c + tmax_c) / 2.0 in
  let td := py_max (tmax_c - tmin_c) 0 in
  root ← math_sqrt td;
  let eto := py_max 0.0 (0.0023 * (tmean + 17.8) * root * 10) in
  Ok eto.

(** The Hargreaves term of [simple_eto_mm_per_day] before the outer clamp,
    in the words of the specification. *)
Definition hargreaves_term (tmin tmax : R) : R :=
  0.0023 * ((tmin + tmax) / 2 + 17.8) * sqrt (Rmax (tmax - tmin) 0) * 10.

Definition irrigation_need_liters
    (soil_type stage : string)
    (current_vwc target_low area_m2 tmin_c tmax_c : R) : result (R * R * R) :=
  root_m ← dict_get ROOT_DEPTH_M stage;
  raw_mm_per_m ← dict_get SOIL_RAW_MM_PER_M soil_type;
  deficit_frac ← py_div (py_max (target_low - current_vwc) 0.0)
                        (py_max target_low 1e-6);
  let deficit_mm := deficit_frac * IZR raw_mm_per_m * root_m in
  eto ← simple_eto_mm_per_day tmin_c tmax_c;
  kc ← dict_get KC_STAGE stage;
  let etc_mm := kc * eto in
  let total_mm := py_max 0.0 (deficit_mm + etc_mm) in
  let liters := total_mm * area_m2 in
  Ok (liters, deficit_mm, etc_mm).

(** ** Status classification (the [if]/[elif]/[else] of column 1) *)

Inductive Status : Set :=
| NeedsWater   (* st.success: irrigate now *)
| Sufficient   (* st.info: no irrigation needed *)
| Monitor.     (* st.warning: keep watching *)

Definition classify (vwc low high : R) : Status :=
  if Rlt_dec vwc low then NeedsWater
  else if Rgt_dec vwc high then Sufficient
  else Monitor.

(** ** [datetime]

    A [datetime] is its proleptic Gregorian ordinal (day 1 is 0001-01-01)
    and the microseconds elapsed since midnight.  Adding
    [timedelta(days=i)] moves the ordinal and raises [OverflowError]
    outside [1, MAXORDINAL]. *)

Record datetime : Set := mk_datetime {
  toordinal : Z;
  microsecond_of_day : Z
}.

Definition MAXORDINAL : Z := 3652059.

Definition datetime_add_days (d : datetime) (days : Z) : result datetime :=
  let n := (toordinal d + days)%Z in
  if ((0 <? n) && (n <=? MAXORDINAL))%Z
  then Ok (mk_datetime n (microsecond_of_day d))
  else Raise OverflowError.

Definition DAYS_IN_MONTH (month : Z) : Z :=
  match month with
  | 1 => 31 | 2 => 28 | 3 => 31 | 4 => 30 | 5 => 31 | 6 => 30
  | 7 => 31 | 8 => 31 | 9 => 30 | 10 => 31 | 11 => 30 | 12 => 31
  | _ => -1
  end%Z.

Definition DAYS_BEFORE_MONTH (month : Z) : Z :=
  match month with
  | 1 => 0 | 2 => 31 | 3 => 59 | 4 => 90 | 5 => 120 | 6 => 151
  | 7 => 181 | 8 => 212 | 9 => 243 | 10 => 273 | 11 => 304 | 12 => 334
  | _ => -1
  end%Z.

(** The library's conversion of an ordinal to (year, month, day). *)
Definition ord2ymd (ordinal : Z) : Z * Z * Z :=
  (let n := ordinal - 1 in
   let n400 := n / 146097 in
   let n := n mod 146097 in
   let year := n400 * 400 + 1 in
   let n100 := n / 36524 in
   let n := n mod 36524 in
   let n4 := n / 1461 in
   let n := n mod 1461 in
   let n1 := n / 365 in
   let n := n mod 365 in
   let year := year + n100 * 100 + n4 * 4 + n1 in
   if (n1 =? 4) || (n100 =? 4) then (year - 1, 12, 31)
   else
     let leapyear := (n1 =? 3) && (negb (n4 =? 24) || (n100 =? 3)) in
     let month := Z.shiftr (n + 50) 5 in
     let preceding :=
       DAYS_BEFORE_MONTH month + (if (2 <? month) && leapyear then 1 else 0) in
     if n <? preceding then
       let month := month - 1 in
       let preceding :=
         preceding
         - (DAYS_IN_MONTH month + (if (month =? 2) && leapyear then 1 else 0)) in
       (year, month, n - preceding + 1)
     else (year, month, n - preceding + 1))%Z.

Definition decimal (n : Z) : string :=
  DecimalString.NilZero.string_of_uint (N.to_uint (Z.to_N n)).

Definition decimal02 (n : Z) : string :=
  if (n <? 10)%Z then "0" ++ decimal n else decimal n.

(** [d.strftime("%d-%m-%Y")]. *)
Definition strftime_dmY (d : datetime) : string :=
  let '(year, month, day) := ord2ymd (toordinal d) in
  decimal02 day ++ "-" ++ decimal02 month ++ "-" ++ decimal year.

(** ** [round(x, 2)]: to the nearest hundredth, ties to the even one *)

Definition round_half_even (x : R) : Z :=
  let f := Int_part x in
  let r := x - IZR f in
  if Rlt_dec r (1 / 2) then f
  else if Rlt_dec (1 / 2) r then (f + 1)%Z
  else if Z.even f then f else (f + 1)%Z.

Definition py_round2 (x : R) : R :=
  IZR (round_half_even (x * 100)) / 100.

(** [np.clip(x, lo, hi)]. *)
Definition np_clip (x lo hi : R) : R := Rmin (Rmax x lo) hi.

(** ** NumPy's global random generator *)

Class RandomState (rng : Type) := {
  seeded : Z -> rng;
  normal : R -> R -> rng -> R * rng;
  uniform : R -> R -> rng -> R * rng
}.

(** ** The script *)

Inductive Mode : Type :=
| Manual (vwc : R)
| Simulate (seed : Z).

Record Inputs : Type := mk_inputs {
  in_crop : string;
  in_soil_type : string;
  in_area_value : R;
  in_area_unit : string;
  in_stage : string;
  in_tmin : R;
  in_tmax : R;
  in_mode : Mode
}.

(** One dictionary appended to [plan_data]. *)
Record PlanRow : Type := mk_row {
  row_date : string;
  row_etc_mm : R;
  row_liters : R
}.

Record Output : Type := mk_output {
  out_vwc : R;
  out_area_m2 : R;
  out_low : R;
  out_high : R;
  out_liters : R;
  out_deficit_mm : R;
  out_etc_mm : R;
  out_status : Status;
  out_dates : list datetime;
  out_plan_data : list PlanRow
}.

Section Script.

Context {rng : Type} {RS : RandomState rng}.

(** [np.random.seed(seed)]. *)
Definition np_random_seed (seed : Z) : result rng :=
  if ((0 <=? seed) && (seed <? 2 ^ 32))%Z
  then Ok (seeded seed)
  else Raise ValueError.

(** The moisture reading of the sidebar. *)
Definition read_vwc (mode : Mode) (g : rng) : result (R * rng) :=
  match mode with
  | Manual vwc => Ok (vwc, g)
  | Simulate seed =>
      g0 ← np_random_seed seed;
      let '(x, g1) := normal 0.16 0.03 g0 in
      Ok (np_clip x 0 0.6, g1)
  end.

(** [[datetime.today() + timedelta(days=i) for i in range(7)]]: the clock
    is read once per element. *)
Definition plan_dates (clock : nat -> datetime) : result (list datetime) :=
  mapM (fun i : nat => datetime_add_days (clock i) (Z.of_nat i)) (seq 0 7).

(** [for d in dates: ...]. *)
Fixpoint plan_loop (stage : string) (tmin tmax area_m2 : R)
    (dates : list datetime) (g : rng) : result (list PlanRow * rng) :=
  match dates with
  | [] => Ok ([], g)
  | d :: dates' =>
      let '(j1, g1) := uniform (-1) 1 g in
      let tmin_d := tmin + j1 in
      let '(j2, g2) := uniform (-1) 1 g1 in
      let tmax_d := tmax + j2 in
      eto_d ← simple_eto_mm_per_day tmin_d tmax_d;
      kc ← dict_get KC_STAGE stage;
      let etc_mm_d := kc * eto_d in
      let liters_d := etc_mm_d * area_m2 in
      let row := mk_row (strftime_dmY d) (py_round2 etc_mm_d)
                        (py_round2 liters_d) in
      '(rows, g') ← plan_loop stage tmin tmax area_m2 dates' g2;
      Ok (row :: rows, g')
  end.

Definition planner (stage : string) (tmin tmax area_m2 : R)
    (clock : nat -> datetime) (g : rng)
    : result (list datetime * list PlanRow * rng) :=
  dates ← plan_dates clock;
  '(plan_data, g') ← plan_loop stage tmin tmax area_m2 dates g;
  Ok (dates, plan_data, g').

Definition script (inp : Inputs) (clock : nat -> datetime) (g : rng)
    : result (Output * rng) :=
  '(vwc, g1) ← read_vwc (in_mode inp) g;
  let area_m2 := area_to_sq_m (in_area_value inp) (in_area_unit inp) in
  '(low, high) ← dict_get SOIL_TARGET_RANGE (in_soil_type inp);
  '(liters, deficit_mm, etc_mm) ←
    irrigation_need_liters (in_soil_type inp) (in_stage inp) vwc low area_m2
                           (in_tmin inp) (in_tmax inp);
  let status := classify vwc low high in
  '(dates, plan_data, g2) ←
    planner (in_stage inp) (in_tmin inp) (in_tmax inp) area_m2 clock g1;
  Ok (mk_output vwc area_m2 low high liters deficit_mm etc_mm status
                dates plan_data, g2).

(** The plan table of a run, whatever else the run computed. *)
Definition plan_of (run : result (Output * rng)) : result (list PlanRow) :=
  (fun r : Output * rng => out_plan_data (fst r)) <$> run.

(** The generator after [k] draws of [uniform (-1) 1], the [k]-th such
    draw, and the reference evapotranspiration of day [i] of the plan,
    which consumes draws [2 i] and [2 i + 1]. *)
Fixpoint after_draws (k : nat) (g : rng) : rng :=
  match k with
  | O => g
  | S k' => snd (uniform (-1) 1 (after_draws k' g))
  end.

Definition jitter (g : rng) (k : nat) : R :=
  fst (uniform (-1) 1 (after_draws k g)).

Definition day_eto (tmin tmax : R) (g : rng) (i : nat) : R :=
  Rmax 0 (hargreaves_term (tmin + jitter g (2 * i))
                          (tmax + jitter g (2 * i + 1))).

(** The row of day [i] in the words of the specification, with the
    rounding of the loop body. *)
Definition plan_row (kc tmin tmax area_m2 : R) (g : rng) (i : nat)
    (d : datetime) : PlanRow :=
  mk_row (strftime_dmY d)
         (py_round2 (kc * day_eto tmin tmax g i))
         (py_round2 (kc * day_eto tmin tmax g i * area_m2)).

(** Two form submissions agree on what the plan loop reads. *)
Definition same_planner_inputs (inp1 inp2 : Inputs) : Prop :=
  in_stage inp1 = in_stage inp2
  /\ in_tmin inp1 = in_tmin inp2
  /\ in_tmax inp1 = in_tmax inp2
  /\ area_to_sq_m (in_area_value inp1) (in_area_unit inp1)
     = area_to_sq_m (in_area_value inp2) (in_area_unit inp2).

End Script.

(** A deterministic stand-in for the generator, used to run the script on
    concrete inputs: the state counts the draws, [normal] answers its mean
    and [uniform] alternates between the midpoints of the lower and of the
    upper half of its range. *)
Definition counting_random : RandomState nat := {|
  seeded := Z.to_nat;
  normal := fun mu _ n => (mu, S n);
  uniform := fun lo hi n => (if Nat.even n then lo / 2 else hi / 2, S n)
|}.

(** Day [i] of the plan when every reading of the clock falls on the day
    of ordinal [day0]. *)
Definition plan_day (clock : nat -> datetime) (day0 : Z) (i : nat) : datetime :=
  mk_datetime (day0 + Z.of_nat i) (microsecond_of_day (clock i)).

(** A clock that answers the same instant at every reading. *)
Definition frozen_clock (now : datetime) : nat -> datetime := fun _ => now.

(** Sample form submissions and a sample clock for concrete runs: the
    defaults of the form (tomato, a quarter of an acre, vegetative stage,
    22 to 33 degrees) on loam, read on 04-11-2026. *)
Definition sample_inputs (mode : Mode) : Inputs :=
  mk_inputs "टमाटर" "दोमट (Loam)" 0.25 "एकड़" "वनस्पति अवस्था" 22 33 mode.

Definition sample_clock : nat -> datetime :=
  frozen_clock (mk_datetime 739924 0).

(** The date built from reading [i] of the clock. *)
Definition reading_date (clock : nat -> datetime) (i : nat) : datetime :=
  mk_datetime (toordinal (clock i) + Z.of_nat i) (microsecond_of_day (clock i)).

(** The seed of a simulated reading is one that NumPy accepts. *)
Definition seed_accepted (mode : Mode) : Prop :=
  match mode with
  | Manual _ => True
  | Simulate seed => (0 <= seed < 2 ^ 32)%Z
  end.

(** Every date of the plan is within the range of [datetime]. *)
Definition clock_in_range (clock : nat -> datetime) : Prop :=
  forall i, (i < 7)%nat ->
    (0 < toordinal (clock i) + Z.of_nat i <= MAXORDINAL)%Z.

(** A clock read across midnight: the first reading is the last
    microsecond of 04-11-2026 and every later reading falls in the first
    second of 05-11-2026. *)
Definition midnight_clock (i : nat) : datetime :=
  match i with
  | O => mk_datetime 739924 86399999999
  | S _ => mk_datetime 739925 (Z.of_nat i)
  end.

Example strftime_leap_day :
  strftime_dmY (mk_datetime 738944 0) = "28-02-2024"
  /\ strftime_dmY (mk_datetime 738945 0) = "29-02-2024"
  /\ strftime_dmY (mk_datetime 739251 0) = "31-12-2024"
  /\ strftime_dmY (mk_datetime 739924 0) = "04-11-2026"
  /\ strftime_dmY (mk_datetime 3652059 0) = "31-12-9999".
Proof. repeat split; vm_compute; reflexivity. Qed.

(** * Properties *)

(** ** The primitives *)

Lemma py_max_Rmax (a b : R) : py_max a b = Rmax a b.
Proof.
  unfold py_max, Rmax.
  destruct (Rlt_dec a b), (Rle_dec a b); lra.
Qed.

Lemma py_div_nonzero (a b : R) : b <> 0 -> py_div a b = Ok (a / b).
Proof.
  intros Hb. unfold py_div.
  destruct (Req_dec_T b 0); [contradiction | reflexivity].
Qed.

Lemma math_sqrt_nonneg (x : R) : 0 <= x -> math_sqrt x = Ok (sqrt x).
Proof.
  intros Hx. unfold math_sqrt.
  destruct (Rlt_dec x 0); [lra | reflexivity].
Qed.

Lemma dict_get_Some {V : Type} (d : gmap string V) (k : string) (v : V) :
  d !! k = Some v -> dict_get d k = Ok v.
Proof. intros Hk. unfold dict_get. rewrite Hk. reflexivity. Qed.

Lemma dict_get_None {V : Type} (d : gmap string V) (k : string) :
  d !! k = None -> dict_get d k = Raise KeyError.
Proof. intros Hk. unfold dict_get. rewrite Hk. reflexivity. Qed.

(** ** The tables *)

(** Case analysis on a successful lookup in a table written as a chain of
    insertions. *)
Ltac table_cases H :=
  repeat (apply lookup_insert_Some in H as [[<- <-] | [_ H]]);
  [.. | rewrite lookup_empty in H; discriminate H].

Lemma SOIL_RAW_MM_PER_M_pos (soil : string) (raw : Z) :
  SOIL_RAW_MM_PER_M !! soil = Some raw -> 0 < IZR raw.
Proof.
  unfold SOIL_RAW_MM_PER_M. intros Hs. table_cases Hs; lra.
Qed.

Lemma ROOT_DEPTH_M_pos (stage : string) (root : R) :
  ROOT_DEPTH_M !! stage = Some root -> 0 < root.
Proof.
  unfold ROOT_DEPTH_M. intros Hs. table_cases Hs; lra.
Qed.

Lemma KC_STAGE_pos (stage : string) (kc : R) :
  KC_STAGE !! stage = Some kc -> 0 < kc.
Proof.
  unfold KC_STAGE. intros Hs. table_cases Hs; lra.
Qed.

Lemma SOIL_TARGET_RANGE_ordered (soil : string) (low high : R) :
  SOIL_TARGET_RANGE !! soil = Some (low, high) -> 0 <= low < high /\ high <= 1.
Proof.
  unfold SOIL_TARGET_RANGE. intros Hs.
  repeat (apply lookup_insert_Some in Hs as [[<- Hv] | [_ Hs]];
          [injection Hv as <- <-; lra |]).
  rewrite lookup_empty in Hs. discriminate Hs.
Qed.

Lemma dom_SOIL_RAW_MM_PER_M :
  dom SOIL_RAW_MM_PER_M
  = ({[ "रेतीली (Sandy)"; "दोमट (Loam)"; "चिकनी (Clay)" ]} : gset string).
Proof. unfold SOIL_RAW_MM_PER_M. rewrite !dom_insert_L, dom_empty_L. set_solver. Qed.

Lemma dom_SOIL_TARGET_RANGE : dom SOIL_TARGET_RANGE = dom SOIL_RAW_MM_PER_M.
Proof.
  unfold SOIL_TARGET_RANGE, SOIL_RAW_MM_PER_M.
  rewrite !dom_insert_L, !dom_empty_L. reflexivity.
Qed.

Lemma dom_ROOT_DEPTH_M :
  dom ROOT_DEPTH_M
  = ({[ "शुरुआती अवस्था"; "वनस्पति अवस्था"; "फूल आने की अवस्था";
        "फल आने की अवस्था" ]} : gset string).
Proof. unfold ROOT_DEPTH_M. rewrite !dom_insert_L, dom_empty_L. set_solver. Qed.

Lemma dom_KC_STAGE : dom KC_STAGE = dom ROOT_DEPTH_M.
Proof.
  unfold KC_STAGE, ROOT_DEPTH_M.
  rewrite !dom_insert_L, !dom_empty_L. reflexivity.
Qed.

Lemma KC_STAGE_defined (stage : string) :
  stage ∈ dom ROOT_DEPTH_M -> is_Some (KC_STAGE !! stage).
Proof. rewrite <- dom_KC_STAGE. apply elem_of_dom. Qed.

(** Membership of a literal key is settled by running the lookup. *)
Ltac key_in_table := apply elem_of_dom; eexists; reflexivity.
Ltac key_not_in_table := apply not_elem_of_dom; reflexivity.

Lemma loam_in_table : "दोमट (Loam)" ∈ dom SOIL_TARGET_RANGE.
Proof. key_in_table. Qed.

Lemma clay_in_table : "चिकनी (Clay)" ∈ dom SOIL_TARGET_RANGE.
Proof. key_in_table. Qed.

Lemma vegetative_in_table : "वनस्पति अवस्था" ∈ dom KC_STAGE.
Proof. key_in_table. Qed.

(** ** Reference evapotranspiration *)

Lemma simple_eto_mm_per_day_eq (tmin tmax : R) :
  simple_eto_mm_per_day tmin tmax = Ok (Rmax 0 (hargreaves_term tmin tmax)).
Proof.
  unfold simple_eto_mm_per_day, hargreaves_term.
  rewrite !py_max_Rmax.
  rewrite math_sqrt_nonneg by apply Rmax_r.
  cbn. rewrite py_max_Rmax. f_equal. f_equal; lra.
Qed.

Lemma hargreaves_term_equal_temps (t : R) : hargreaves_term t t = 0.
Proof.
  unfold hargreaves_term.
  replace (t - t) with 0 by lra.
  rewrite Rmax_left by lra. rewrite sqrt_0. lra.
Qed.

(** ** The estimator *)

Lemma deficit_denominator_pos (target_low : R) : 0 < Rmax target_low 1e-6.
Proof.
  apply Rlt_le_trans with (r2 := 1e-6); [lra | apply Rmax_r].
Qed.

Lemma irrigation_need_liters_eq
    (soil stage : string) (raw : Z) (root kc : R)
    (vwc target_low area_m2 tmin tmax : R) :
  SOIL_RAW_MM_PER_M !! soil = Some raw ->
  ROOT_DEPTH_M !! stage = Some root ->
  KC_STAGE !! stage = Some kc ->
  irrigation_need_liters soil stage vwc target_low area_m2 tmin tmax
  = Ok (Rmax 0 (Rmax (target_low - vwc) 0 / Rmax target_low 1e-6
                * IZR raw * root
                + kc * Rmax 0 (hargreaves_term tmin tmax)) * area_m2,
        Rmax (target_low - vwc) 0 / Rmax target_low 1e-6 * IZR raw * root,
        kc * Rmax 0 (hargreaves_term tmin tmax)).
Proof.
  intros Hraw Hroot Hkc. unfold irrigation_need_liters.
  rewrite (dict_get_Some _ _ _ Hroot), (dict_get_Some _ _ _ Hraw),
          (dict_get_Some _ _ _ Hkc).
  rewrite simple_eto_mm_per_day_eq, !py_max_Rmax.
  pose proof (deficit_denominator_pos target_low) as Hden.
  rewrite py_div_nonzero by lra.
  cbn. rewrite py_max_Rmax. replace 0.0 with 0 by lra. reflexivity.
Qed.

Lemma irrigation_need_liters_KeyError
    (soil stage : string) (vwc target_low area_m2 tmin tmax : R) :
  soil ∉ dom SOIL_RAW_MM_PER_M \/ stage ∉ dom ROOT_DEPTH_M ->
  irrigation_need_liters soil stage vwc target_low area_m2 tmin tmax
  = Raise KeyError.
Proof.
  intros Hout. unfold irrigation_need_liters.
  destruct (ROOT_DEPTH_M !! stage) as [root|] eqn:Hroot.
  - destruct Hout as [Hsoil | Hstage].
    + apply not_elem_of_dom in Hsoil.
      rewrite (dict_get_Some _ _ _ Hroot), (dict_get_None _ _ Hsoil).
      reflexivity.
    + exfalso. apply Hstage, elem_of_dom. eauto.
  - rewrite (dict_get_None _ _ Hroot). reflexivity.
Qed.

(** Evaluate [Rmax] at operands that linear arithmetic can compare. *)
Ltac eval_Rmax :=
  repeat match goal with
         | |- context [Rmax ?a ?b] =>
             first [ rewrite (Rmax_left a b) by lra
                   | rewrite (Rmax_right a b) by lra ]
         end.

Lemma deficit_mm_nonneg (vwc target_low : R) (raw : Z) (root : R) :
  0 < IZR raw -> 0 < root ->
  0 <= Rmax (target_low - vwc) 0 / Rmax target_low 1e-6 * IZR raw * root.
Proof.
  intros Hraw Hroot.
  pose proof (deficit_denominator_pos target_low) as Hden.
  pose proof (Rmax_r (target_low - vwc) 0) as Hnum.
  apply Rmult_le_pos; [apply Rmult_le_pos |]; try lra.
  apply Rmult_le_pos; [lra |].
  apply Rlt_le, Rinv_0_lt_compat. exact Hden.
Qed.

Lemma etc_mm_nonneg (kc tmin tmax : R) :
  0 < kc -> 0 <= kc * Rmax 0 (hargreaves_term tmin tmax).
Proof.
  intros Hkc. apply Rmult_le_pos; [lra | apply Rmax_l].
Qed.

Lemma stage_lookups (stage : string) :
  stage ∈ dom ROOT_DEPTH_M ->
  exists root kc,
    ROOT_DEPTH_M !! stage = Some root /\ KC_STAGE !! stage = Some kc
    /\ 0 < root /\ 0 < kc.
Proof.
  intros Hstage.
  destruct (KC_STAGE_defined stage Hstage) as [kc Hkc].
  apply elem_of_dom in Hstage as [root Hroot].
  exists root, kc. repeat split; try assumption.
  - eapply ROOT_DEPTH_M_pos; eassumption.
  - eapply KC_STAGE_pos; eassumption.
Qed.

Lemma soil_lookup (soil : string) :
  soil ∈ dom SOIL_RAW_MM_PER_M ->
  exists raw, SOIL_RAW_MM_PER_M !! soil = Some raw /\ 0 < IZR raw.
Proof.
  intros Hsoil. apply elem_of_dom in Hsoil as [raw Hraw].
  exists raw. split; [assumption |].
  eapply SOIL_RAW_MM_PER_M_pos; eassumption.
Qed.

(** ** The claims about the helper functions and the estimator *)

(** C1: for a soil type and a growth stage of the tables, and all real
    inputs, [irrigation_need_liters] returns exactly
    deficitMm = max(targetLow - vwc, 0) / max(targetLow, 1e-6)
                * raw_mm_per_m * root_depth_m,
    etcMm = kc * max(0, 0.0023 * ((tmin + tmax) / 2 + 17.8)
                        * sqrt(max(tmax - tmin, 0)) * 10) and
    liters = max(0, deficitMm + etcMm) * areaM2. *)
Theorem irrigation_need_liters_formula
    (soil stage : string) (raw : Z) (root kc : R)
    (vwc targetLow areaM2 tmin tmax : R) :
  SOIL_RAW_MM_PER_M !! soil = Some raw ->
  ROOT_DEPTH_M !! stage = Some root ->
  KC_STAGE !! stage = Some kc ->
  let deficitMm :=
    Rmax (targetLow - vwc) 0 / Rmax targetLow 1e-6 * IZR raw * root in
  let etcMm :=
    kc * Rmax 0 (0.0023 * ((tmin + tmax) / 2 + 17.8)
                 * sqrt (Rmax (tmax - tmin) 0) * 10) in
  let liters := Rmax 0 (deficitMm + etcMm) * areaM2 in
  irrigation_need_liters soil stage vwc targetLow areaM2 tmin tmax
  = Ok (liters, deficitMm, etcMm).
Proof.
  intros Hraw Hroot Hkc. cbv zeta.
  rewrite (irrigation_need_liters_eq _ _ _ _ _ _ _ _ _ _ Hraw Hroot Hkc).
  reflexivity.
Qed.

Lemma irrigation_need_liters_formula_witness :
  irrigation_need_liters "दोमट (Loam)" "वनस्पति अवस्था" 0.16 0.18 1000 22 33
  = Ok (Rmax 0 (Rmax (0.18 - 0.16) 0 / Rmax 0.18 1e-6 * IZR 90 * 0.6
                + 0.95 * Rmax 0 (0.0023 * ((22 + 33) / 2 + 17.8)
                                 * sqrt (Rmax (33 - 22) 0) * 10)) * 1000,
        Rmax (0.18 - 0.16) 0 / Rmax 0.18 1e-6 * IZR 90 * 0.6,
        0.95 * Rmax 0 (0.0023 * ((22 + 33) / 2 + 17.8)
                       * sqrt (Rmax (33 - 22) 0) * 10)).
Proof.
  exact (irrigation_need_liters_formula
           "दोमट (Loam)" "वनस्पति अवस्था" 90%Z 0.6 0.95 0.16 0.18 1000 22 33
           eq_refl eq_refl eq_refl).
Defined.

(** C5 as stated fails for a negative area: the deficit and the crop
    evapotranspiration are 54 mm and 0 mm, and the litres are -54. *)
Lemma estimator_liters_negative :
  exists liters deficit_mm etc_mm,
    irrigation_need_liters "दोमट (Loam)" "वनस्पति अवस्था" 0 0.18 (-1) 0 0
    = Ok (liters, deficit_mm, etc_mm)
    /\ ~ (0 <= liters /\ 0 <= deficit_mm /\ 0 <= etc_mm).
Proof.
  do 3 eexists. split.
  - apply (irrigation_need_liters_eq _ _ 90%Z 0.6 0.95); reflexivity.
  - rewrite hargreaves_term_equal_temps. eval_Rmax. intros [Hl _].
    replace (0.18 - 0) with 0.18 in Hl by lra.
    replace (0.18 / 0.18) with 1 in Hl by (field; lra).
    revert Hl. eval_Rmax. lra.
Qed.

(** C5, amended: for a soil type and a stage of the tables and all real
    vwc, target_low, area, tmin, tmax, the estimator returns
    deficitMm >= 0 and etcMm >= 0, and liters >= 0 whenever the area is
    not negative. *)
Theorem estimator_outputs_nonneg
    (soil stage : string) (vwc target_low area_m2 tmin tmax : R) :
  soil ∈ dom SOIL_RAW_MM_PER_M ->
  stage ∈ dom ROOT_DEPTH_M ->
  exists liters deficit_mm etc_mm,
    irrigation_need_liters soil stage vwc target_low area_m2 tmin tmax
    = Ok (liters, deficit_mm, etc_mm)
    /\ 0 <= deficit_mm
    /\ 0 <= etc_mm
    /\ (0 <= area_m2 -> 0 <= liters).
Proof.
  intros Hsoil Hstage.
  destruct (soil_lookup soil Hsoil) as (raw & Hraw & Hraw_pos).
  destruct (stage_lookups stage Hstage) as (root & kc & Hroot & Hkc & Hr & Hk).
  do 3 eexists. split; [apply irrigation_need_liters_eq; eassumption |].
  split; [apply deficit_mm_nonneg; assumption |].
  split; [apply etc_mm_nonneg; assumption |].
  intros Harea. apply Rmult_le_pos; [apply Rmax_l | exact Harea].
Qed.

Lemma estimator_outputs_nonneg_witness :
  exists liters deficit_mm etc_mm,
    irrigation_need_liters "चिकनी (Clay)" "फल आने की अवस्था" 0.2 0.25 1000 22 33
    = Ok (liters, deficit_mm, etc_mm)
    /\ 0 <= deficit_mm
    /\ 0 <= etc_mm
    /\ (0 <= 1000 -> 0 <= liters).
Proof.
  apply estimator_outputs_nonneg.
  - key_in_table.
  - key_in_table.
Defined.

(** C6 as stated fails for a negative area: with a deficit of 9 mm on an
    area of -2 the litres are -18, not 0. *)
Lemma estimator_negative_area_nonzero :
  exists liters deficit_mm etc_mm,
    irrigation_need_liters "रेतीली (Sandy)" "शुरुआती अवस्था" 0.05 0.10 (-2) 20 20
    = Ok (liters, deficit_mm, etc_mm)
    /\ -2 <= 0
    /\ liters <> 0.
Proof.
  do 3 eexists. split.
  - apply (irrigation_need_liters_eq _ _ 60%Z 0.3 0.6); reflexivity.
  - split; [lra |].
    rewrite hargreaves_term_equal_temps. eval_Rmax.
    replace ((0.10 - 0.05) / 0.10) with (1 / 2) by lra.
    eval_Rmax. lra.
Qed.

(** C6, amended: for a soil type and a stage of the tables and an area
    that is not positive, the estimator returns without an error, its
    litres are max(0, deficit_mm + etc_mm) * area, which is not positive,
    and they are 0 when the area is 0. *)
Theorem estimator_nonpositive_area
    (soil stage : string) (vwc target_low area_m2 tmin tmax : R) :
  soil ∈ dom SOIL_RAW_MM_PER_M ->
  stage ∈ dom ROOT_DEPTH_M ->
  area_m2 <= 0 ->
  exists liters deficit_mm etc_mm,
    irrigation_need_liters soil stage vwc target_low area_m2 tmin tmax
    = Ok (liters, deficit_mm, etc_mm)
    /\ liters = Rmax 0 (deficit_mm + etc_mm) * area_m2
    /\ liters <= 0
    /\ (area_m2 = 0 -> liters = 0).
Proof.
  intros Hsoil Hstage Harea.
  destruct (soil_lookup soil Hsoil) as (raw & Hraw & _).
  destruct (stage_lookups stage Hstage) as (root & kc & Hroot & Hkc & _).
  do 3 eexists. split; [apply irrigation_need_liters_eq; eassumption |].
  split; [reflexivity |].
  match goal with
  | |- ?t * _ <= 0 /\ _ => pose proof (Rmax_l 0 (t - 0)) as Ht;
                           assert (0 <= t) as Ht'
  end.
  { apply Rmax_l. }
  split; [nra |].
  intros ->. lra.
Qed.

Lemma estimator_nonpositive_area_witness :
  exists liters deficit_mm etc_mm,
    irrigation_need_liters "दोमट (Loam)" "फूल आने की अवस्था" 0.1 0.18 0 22 33
    = Ok (liters, deficit_mm, etc_mm)
    /\ liters = Rmax 0 (deficit_mm + etc_mm) * 0
    /\ liters <= 0
    /\ (0 = 0 -> liters = 0).
Proof.
  apply estimator_nonpositive_area.
  - key_in_table.
  - key_in_table.
  - lra.
Defined.

(** C8: for tmax >= tmin, [simple_eto_mm_per_day] returns a value >= 0;
    for tmax = tmin it returns 0; and when the Hargreaves term
    0.0023 * (tmean + 17.8) * sqrt(td) * 10 is negative the result is 0,
    not an error. *)
Theorem simple_eto_nonneg_zero_floor (tmin tmax : R) :
  (tmin <= tmax ->
   exists eto, simple_eto_mm_per_day tmin tmax = Ok eto /\ 0 <= eto)
  /\ (tmax = tmin -> simple_eto_mm_per_day tmin tmax = Ok 0)
  /\ (0.0023 * ((tmin + tmax) / 2 + 17.8) * sqrt (Rmax (tmax - tmin) 0) * 10
      < 0 ->
      simple_eto_mm_per_day tmin tmax = Ok 0).
Proof.
  rewrite simple_eto_mm_per_day_eq. repeat split.
  - intros _. eexists. split; [reflexivity | apply Rmax_l].
  - intros ->. rewrite hargreaves_term_equal_temps.
    rewrite Rmax_left by lra. reflexivity.
  - intros Hneg. fold (hargreaves_term tmin tmax) in Hneg.
    rewrite Rmax_left by lra. reflexivity.
Qed.

Lemma simple_eto_nonneg_zero_floor_witness :
  (22 <= 33 /\ exists eto, simple_eto_mm_per_day 22 33 = Ok eto /\ 0 <= eto)
  /\ (20 = 20 /\ simple_eto_mm_per_day 20 20 = Ok 0)
  /\ (0.0023 * ((-41 + -40) / 2 + 17.8) * sqrt (Rmax (-40 - -41) 0) * 10 < 0
      /\ simple_eto_mm_per_day (-41) (-40) = Ok 0).
Proof.
  assert (0.0023 * ((-41 + -40) / 2 + 17.8) * sqrt (Rmax (-40 - -41) 0) * 10
          < 0) as Hneg.
  { replace (-40 - -41) with 1 by lra.
    rewrite Rmax_left by lra. rewrite sqrt_1. lra. }
  split; [| split].
  - split; [lra |].
    apply (proj1 (simple_eto_nonneg_zero_floor 22 33)). lra.
  - split; [reflexivity |].
    apply (proj1 (proj2 (simple_eto_nonneg_zero_floor 20 20))). reflexivity.
  - split; [exact Hneg |].
    apply (proj2 (proj2 (simple_eto_nonneg_zero_floor (-41) (-40)))).
    exact Hneg.
Defined.

(** C9: [area_to_sq_m] multiplies acres by 4046.8564224 and hectares by
    10000.0, returns square metres as they are, and returns the value
    unchanged for every other unit string. *)
Theorem area_to_sq_m_units (v : R) :
  area_to_sq_m v "एकड़" = v * 4046.8564224
  /\ area_to_sq_m v "हेक्टेयर" = v * 10000.0
  /\ area_to_sq_m v "m²" = v
  /\ (forall unit : string,
        unit <> "एकड़" -> unit <> "हेक्टेयर" -> unit <> "m²" ->
        area_to_sq_m v unit = v).
Proof.
  split; [reflexivity |]. split; [reflexivity |]. split; [reflexivity |].
  intros unit Hacre Hhectare Hm2. unfold area_to_sq_m.
  apply String.eqb_neq in Hacre, Hhectare, Hm2.
  rewrite Hacre, Hhectare, Hm2. reflexivity.
Qed.

Lemma area_to_sq_m_units_witness :
  area_to_sq_m 0.25 "एकड़" = 0.25 * 4046.8564224
  /\ area_to_sq_m 0.25 "हेक्टेयर" = 0.25 * 10000.0
  /\ area_to_sq_m 0.25 "m²" = 0.25
  /\ ("bigha" <> "एकड़" /\ "bigha" <> "हेक्टेयर" /\ "bigha" <> "m²"
      /\ area_to_sq_m 0.25 "bigha" = 0.25).
Proof.
  destruct (area_to_sq_m_units 0.25) as (Hacre & Hhectare & Hm2 & Hother).
  split; [exact Hacre |]. split; [exact Hhectare |]. split; [exact Hm2 |].
  split; [discriminate |]. split; [discriminate |]. split; [discriminate |].
  apply Hother; discriminate.
Defined.

(** C10: for a soil type among the three keys and a stage among the four
    keys, and all real vwc, target_low, area, tmin, tmax,
    [irrigation_need_liters] returns: the three lookups succeed, the
    divisor max(target_low, 1e-6) is strictly positive, and the square root
    receives td = max(tmax - tmin, 0) >= 0.  For a soil type or a stage
    outside those keys it raises [KeyError]. *)
Theorem irrigation_need_liters_total
    (soil stage : string) (vwc target_low area_m2 tmin tmax : R) :
  (soil ∈ dom SOIL_RAW_MM_PER_M -> stage ∈ dom ROOT_DEPTH_M ->
   returns (dict_get ROOT_DEPTH_M stage)
   /\ returns (dict_get SOIL_RAW_MM_PER_M soil)
   /\ returns (dict_get KC_STAGE stage)
   /\ returns (irrigation_need_liters soil stage vwc target_low area_m2
                                      tmin tmax))
  /\ (0 < py_max target_low 1e-6
      /\ returns (py_div (py_max (target_low - vwc) 0.0)
                         (py_max target_low 1e-6)))
  /\ (0 <= py_max (tmax - tmin) 0
      /\ returns (math_sqrt (py_max (tmax - tmin) 0)))
  /\ (soil ∉ dom SOIL_RAW_MM_PER_M \/ stage ∉ dom ROOT_DEPTH_M ->
      irrigation_need_liters soil stage vwc target_low area_m2 tmin tmax
      = Raise KeyError).
Proof.
  split; [| split; [| split]].
  - intros Hsoil Hstage.
    destruct (soil_lookup soil Hsoil) as (raw & Hraw & _).
    destruct (stage_lookups stage Hstage) as (root & kc & Hroot & Hkc & _).
    unfold returns.
    rewrite (dict_get_Some _ _ _ Hroot), (dict_get_Some _ _ _ Hraw),
            (dict_get_Some _ _ _ Hkc).
    rewrite (irrigation_need_liters_eq _ _ _ _ _ _ _ _ _ _ Hraw Hroot Hkc).
    repeat split; eexists; reflexivity.
  - rewrite !py_max_Rmax.
    pose proof (deficit_denominator_pos target_low) as Hden.
    split; [exact Hden |].
    unfold returns. rewrite py_div_nonzero by lra. eauto.
  - rewrite py_max_Rmax.
    pose proof (Rmax_r (tmax - tmin) 0) as Htd.
    split; [exact Htd |].
    unfold returns. rewrite math_sqrt_nonneg by exact Htd. eauto.
  - apply irrigation_need_liters_KeyError.
Qed.

Lemma irrigation_need_liters_total_witness :
  returns (irrigation_need_liters "रेतीली (Sandy)" "शुरुआती अवस्था"
                                  0.3 (-1) 10 5 (-5))
  /\ irrigation_need_liters "black cotton" "शुरुआती अवस्था" 0.3 0.1 10 5 25
     = Raise KeyError
  /\ irrigation_need_liters "रेतीली (Sandy)" "harvest" 0.3 0.1 10 5 25
     = Raise KeyError.
Proof.
  split; [| split].
  - apply (irrigation_need_liters_total
             "रेतीली (Sandy)" "शुरुआती अवस्था" 0.3 (-1) 10 5 (-5)).
    + key_in_table.
    + key_in_table.
  - apply (irrigation_need_liters_total
             "black cotton" "शुरुआती अवस्था" 0.3 0.1 10 5 25).
    left. key_not_in_table.
  - apply (irrigation_need_liters_total
             "रेतीली (Sandy)" "harvest" 0.3 0.1 10 5 25).
    right. key_not_in_table.
Defined.

(** ** The status classification *)

(** C2 as stated fails at the upper bound of the range: a loam reading of
    exactly 0.28 is classified [Monitor], not [Sufficient]. *)
Lemma status_at_target_high :
  SOIL_TARGET_RANGE !! "दोमट (Loam)" = Some (0.18, 0.28)
  /\ 0.28 >= 0.28
  /\ classify 0.28 0.18 0.28 <> Sufficient.
Proof.
  split; [reflexivity |]. split; [lra |].
  unfold classify.
  destruct (Rlt_dec 0.28 0.18); [lra |].
  destruct (Rgt_dec 0.28 0.28); [lra | discriminate].
Qed.

(** C2, amended: for a soil type of the table, with its range
    [low, high], the status is [NeedsWater] if vwc < low, [Sufficient] if
    vwc > high, and [Monitor] otherwise, that is for
    low <= vwc <= high. *)
Theorem status_classification (soil : string) (low high vwc : R) :
  SOIL_TARGET_RANGE !! soil = Some (low, high) ->
  (vwc < low -> classify vwc low high = NeedsWater)
  /\ (vwc > high -> classify vwc low high = Sufficient)
  /\ (low <= vwc <= high -> classify vwc low high = Monitor).
Proof.
  intros Hsoil.
  apply SOIL_TARGET_RANGE_ordered in Hsoil as [[_ Hlt] _].
  unfold classify.
  destruct (Rlt_dec vwc low), (Rgt_dec vwc high);
    repeat split; intros; (reflexivity || lra).
Qed.

Lemma status_classification_witness :
  SOIL_TARGET_RANGE !! "चिकनी (Clay)" = Some (0.25, 0.35)
  /\ (0.2 < 0.25 /\ classify 0.2 0.25 0.35 = NeedsWater)
  /\ (0.4 > 0.35 /\ classify 0.4 0.25 0.35 = Sufficient)
  /\ (0.25 <= 0.35 <= 0.35 /\ classify 0.35 0.25 0.35 = Monitor).
Proof.
  assert (SOIL_TARGET_RANGE !! "चिकनी (Clay)" = Some (0.25, 0.35)) as Hclay
    by reflexivity.
  split; [exact Hclay |].
  split; [| split].
  - split; [lra |].
    apply (proj1 (status_classification _ _ _ 0.2 Hclay)). lra.
  - split; [lra |].
    apply (proj1 (proj2 (status_classification _ _ _ 0.4 Hclay))). lra.
  - split; [lra |].
    apply (proj2 (proj2 (status_classification _ _ _ 0.35 Hclay))). lra.
Defined.

(** ** Rounding *)

Lemma round_half_even_down (x : R) (f : Z) :
  IZR f <= x < IZR f + 1 / 2 -> round_half_even x = f.
Proof.
  intros Hx. unfold round_half_even.
  rewrite <- (Int_part_spec x f) by lra.
  destruct (Rlt_dec (x - IZR f) (1 / 2)); [reflexivity | lra].
Qed.

Lemma round_half_even_up (x : R) (f : Z) :
  IZR f + 1 / 2 < x < IZR f + 1 -> round_half_even x = (f + 1)%Z.
Proof.
  intros Hx. unfold round_half_even.
  rewrite <- (Int_part_spec x f) by lra.
  destruct (Rlt_dec (x - IZR f) (1 / 2)); [lra |].
  destruct (Rlt_dec (1 / 2) (x - IZR f)); [reflexivity | lra].
Qed.

Lemma round_half_even_tie (x : R) (f : Z) :
  x = IZR f + 1 / 2 ->
  round_half_even x = if Z.even f then f else (f + 1)%Z.
Proof.
  intros Hx. unfold round_half_even.
  rewrite <- (Int_part_spec x f) by lra.
  destruct (Rlt_dec (x - IZR f) (1 / 2)); [lra |].
  destruct (Rlt_dec (1 / 2) (x - IZR f)); [lra | reflexivity].
Qed.

Example py_round2_samples :
  py_round2 0.52854 = 0.53 /\ py_round2 0.125 = 0.12 /\ py_round2 0.135 = 0.14.
Proof.
  unfold py_round2. repeat split.
  - rewrite (round_half_even_up _ 52) by lra.
    change (52 + 1)%Z with 53%Z. lra.
  - rewrite (round_half_even_tie _ 12) by lra.
    change (Z.even 12) with true. lra.
  - rewrite (round_half_even_tie _ 13) by lra.
    change (Z.even 13) with false. change (13 + 1)%Z with 14%Z. lra.
Qed.

(** ** The dates of the plan *)

Lemma mapM_result_Ok {A B : Type} (f : A -> result B) (g : A -> B)
    (l : list A) :
  (forall x, In x l -> f x = Ok (g x)) -> mapM f l = Ok (map g l).
Proof.
  induction l as [| x l IH]; intros Hf.
  - reflexivity.
  - cbn. rewrite (Hf x) by (left; reflexivity). cbn.
    rewrite IH by (intros y Hy; apply Hf; right; exact Hy).
    reflexivity.
Qed.

(** Date [i] is the day of the [i]-th reading of the clock moved [i] days
    ahead. *)
Lemma plan_dates_in_range (clock : nat -> datetime) :
  (forall i, (i < 7)%nat ->
     0 < toordinal (clock i) + Z.of_nat i <= MAXORDINAL)%Z ->
  plan_dates clock
  = Ok (map (fun i : nat =>
               mk_datetime (toordinal (clock i) + Z.of_nat i)
                           (microsecond_of_day (clock i)))
            (seq 0 7)).
Proof.
  intros Hrange. unfold plan_dates.
  apply mapM_result_Ok. intros i Hi.
  apply in_seq in Hi. unfold datetime_add_days.
  destruct (Hrange i ltac:(lia)) as [Hlo Hhi].
  apply Z.ltb_lt in Hlo. apply Z.leb_le in Hhi.
  rewrite Hlo, Hhi. reflexivity.
Qed.

Lemma plan_dates_same_day (clock : nat -> datetime) (day0 : Z) :
  (forall i, (i < 7)%nat -> toordinal (clock i) = day0) ->
  (0 < day0 /\ day0 + 6 <= MAXORDINAL)%Z ->
  plan_dates clock = Ok (map (plan_day clock day0) (seq 0 7)).
Proof.
  intros Hday [Hlo Hhi].
  rewrite plan_dates_in_range by (intros i Hi; rewrite Hday by exact Hi; lia).
  f_equal. apply map_ext_in. intros i Hi. apply in_seq in Hi.
  unfold plan_day. rewrite Hday by lia. reflexivity.
Qed.

(** ** The plan loop *)

Section Planner.

Context {rng : Type} {RS : RandomState rng}.

Lemma after_draws_add (a b : nat) (g : rng) :
  after_draws b (after_draws a g) = after_draws (a + b) g.
Proof.
  induction b as [| b IH].
  - rewrite Nat.add_0_r. reflexivity.
  - rewrite Nat.add_succ_r. cbn. rewrite IH. reflexivity.
Qed.

Lemma jitter_after_draws (a k : nat) (g : rng) :
  jitter (after_draws a g) k = jitter g (a + k).
Proof. unfold jitter. rewrite after_draws_add. reflexivity. Qed.

Lemma day_eto_next (tmin tmax : R) (g : rng) (i : nat) :
  day_eto tmin tmax (after_draws 2 g) i = day_eto tmin tmax g (S i).
Proof.
  unfold day_eto. rewrite !jitter_after_draws.
  replace (2 + 2 * i)%nat with (2 * S i)%nat by lia.
  replace (2 + (2 * i + 1))%nat with (2 * S i + 1)%nat by lia.
  reflexivity.
Qed.

Lemma plan_loop_rows (stage : string) (kc tmin tmax area_m2 : R) :
  KC_STAGE !! stage = Some kc ->
  forall (dates : list datetime) (g : rng),
    plan_loop stage tmin tmax area_m2 dates g
    = Ok (imap (plan_row kc tmin tmax area_m2 g) dates,
          after_draws (2 * length dates) g).
Proof.
  intros Hkc. induction dates as [| d dates IH]; intros g.
  - reflexivity.
  - cbn [plan_loop].
    destruct (uniform (-1) 1 g) as [j1 g1] eqn:Hdraw1.
    destruct (uniform (-1) 1 g1) as [j2 g2] eqn:Hdraw2.
    assert (after_draws 2 g = g2) as Hg2.
    { cbn. rewrite Hdraw1. cbn. rewrite Hdraw2. reflexivity. }
    assert (jitter g 0 = j1) as Hj1.
    { unfold jitter. cbn. rewrite Hdraw1. reflexivity. }
    assert (jitter g 1 = j2) as Hj2.
    { unfold jitter. cbn. rewrite Hdraw1. cbn. rewrite Hdraw2. reflexivity. }
    replace (after_draws (2 * length (d :: dates)) g)
      with (after_draws (2 * length dates) g2)
      by (rewrite <- Hg2, after_draws_add; f_equal; cbn [length]; lia).
    rewrite simple_eto_mm_per_day_eq. cbn [mbind result_bind].
    rewrite (dict_get_Some _ _ _ Hkc). cbn [mbind result_bind].
    rewrite IH. cbn [mbind result_bind imap]. do 3 f_equal.
    + unfold plan_row, day_eto. cbn [Nat.mul Nat.add].
      rewrite Hj1, Hj2. reflexivity.
    + apply imap_ext. intros i d' _. unfold plan_row, compose.
      rewrite <- Hg2, day_eto_next. reflexivity.
Qed.

Lemma planner_same_day (stage : string) (kc tmin tmax area_m2 : R)
    (clock : nat -> datetime) (day0 : Z) (g : rng) :
  KC_STAGE !! stage = Some kc ->
  (forall i, (i < 7)%nat -> toordinal (clock i) = day0) ->
  (0 < day0 /\ day0 + 6 <= MAXORDINAL)%Z ->
  planner stage tmin tmax area_m2 clock g
  = Ok (map (plan_day clock day0) (seq 0 7),
        imap (plan_row kc tmin tmax area_m2 g)
             (map (plan_day clock day0) (seq 0 7)),
        after_draws 14 g).
Proof.
  intros Hkc Hday Hrange. unfold planner.
  rewrite (plan_dates_same_day clock day0 Hday Hrange). cbn [mbind result_bind].
  rewrite (plan_loop_rows stage kc) by exact Hkc. reflexivity.
Qed.

Lemma seven_days_lookup {A : Type} (f : nat -> datetime -> A)
    (clock : nat -> datetime) (day0 : Z) (i : nat) :
  (i < 7)%nat ->
  map (plan_day clock day0) (seq 0 7) !! i = Some (plan_day clock day0 i)
  /\ imap f (map (plan_day clock day0) (seq 0 7)) !! i
     = Some (f i (plan_day clock day0 i)).
Proof.
  intros Hi.
  do 7 (destruct i as [| i]; [split; reflexivity |]). lia.
Qed.

(** *** The script around the loop *)

Lemma plan_of_script_read_raises (inp : Inputs) (clock : nat -> datetime)
    (g : rng) (e : exn) :
  read_vwc (in_mode inp) g = Raise e ->
  plan_of (script inp clock g) = Raise e.
Proof.
  intros Hread. unfold plan_of, script. rewrite Hread. reflexivity.
Qed.

Lemma plan_of_script_bad_stage (inp : Inputs) (clock : nat -> datetime)
    (g g1 : rng) (vwc : R) :
  read_vwc (in_mode inp) g = Ok (vwc, g1) ->
  in_soil_type inp ∈ dom SOIL_TARGET_RANGE ->
  in_stage inp ∉ dom ROOT_DEPTH_M ->
  plan_of (script inp clock g) = Raise KeyError.
Proof.
  intros Hread Hsoil Hstage. unfold plan_of, script.
  rewrite Hread. cbn [mbind result_bind].
  apply elem_of_dom in Hsoil as [[low high] Hrange].
  rewrite (dict_get_Some _ _ _ Hrange). cbn [mbind result_bind].
  rewrite irrigation_need_liters_KeyError by (right; exact Hstage).
  reflexivity.
Qed.

Lemma plan_of_script_planner (inp : Inputs) (clock : nat -> datetime)
    (g g1 : rng) (vwc : R) :
  read_vwc (in_mode inp) g = Ok (vwc, g1) ->
  in_soil_type inp ∈ dom SOIL_TARGET_RANGE ->
  in_stage inp ∈ dom ROOT_DEPTH_M ->
  plan_of (script inp clock g)
  = (fun r : list datetime * list PlanRow * rng => snd (fst r))
    <$> planner (in_stage inp) (in_tmin inp) (in_tmax inp)
                (area_to_sq_m (in_area_value inp) (in_area_unit inp))
                clock g1.
Proof.
  intros Hread Hsoil Hstage. unfold plan_of, script.
  rewrite Hread. cbn [mbind result_bind].
  pose proof Hsoil as Hsoil'. rewrite dom_SOIL_TARGET_RANGE in Hsoil'.
  apply elem_of_dom in Hsoil as [[low high] Hrange].
  destruct (soil_lookup _ Hsoil') as (raw & Hraw & _).
  destruct (stage_lookups _ Hstage) as (root & kc & Hroot & Hkc & _).
  rewrite (dict_get_Some _ _ _ Hrange). cbn [mbind result_bind].
  rewrite (irrigation_need_liters_eq _ _ _ _ _ _ _ _ _ _ Hraw Hroot Hkc).
  cbn [mbind result_bind].
  destruct (planner _ _ _ _ _ _) as [[[dates rows] g2] | e]; reflexivity.
Qed.

(** The status shown by a run is the classification of its moisture
    reading against the range of its soil type. *)
Lemma script_status (inp : Inputs) (clock : nat -> datetime)
    (g g' : rng) (out : Output) :
  script inp clock g = Ok (out, g') ->
  SOIL_TARGET_RANGE !! in_soil_type inp = Some (out_low out, out_high out)
  /\ out_status out = classify (out_vwc out) (out_low out) (out_high out).
Proof.
  unfold script. intros Hrun.
  destruct (read_vwc (in_mode inp) g) as [[vwc g1] | e]; [| discriminate Hrun].
  cbn [mbind result_bind] in Hrun. unfold dict_get in Hrun.
  destruct (SOIL_TARGET_RANGE !! in_soil_type inp) as [[low high] |];
    [| discriminate Hrun].
  cbn [mbind result_bind] in Hrun.
  destruct (irrigation_need_liters _ _ _ _ _ _ _) as [[[liters deficit] etc] | e];
    [| discriminate Hrun].
  cbn [mbind result_bind] in Hrun.
  destruct (planner _ _ _ _ _ _) as [[[dates rows] g2] | e];
    [| discriminate Hrun].
  cbn [mbind result_bind] in Hrun.
  injection Hrun as <- _. split; reflexivity.
Qed.

Lemma read_vwc_simulate (seed : Z) (g g' : rng) :
  read_vwc (Simulate seed) g = read_vwc (Simulate seed) g'.
Proof. reflexivity. Qed.

(** ** The claims about the planner *)

(** When all seven readings of the clock fall on one day [day0] and the
    seven days lie within the range of [datetime], the planner produces
    exactly seven rows, one per date, and the dates are consecutive
    calendar days that start on [day0]: date [i] is day [day0 + i], and
    each date is the day after the one before it.  The run that crosses
    midnight between two readings is in [planner_dates_across_midnight]. *)
Theorem planner_seven_consecutive_dates
    (stage : string) (tmin tmax area_m2 : R)
    (clock : nat -> datetime) (day0 : Z) (g : rng) :
  stage ∈ dom KC_STAGE ->
  (forall i, (i < 7)%nat -> toordinal (clock i) = day0) ->
  (0 < day0 /\ day0 + 6 <= MAXORDINAL)%Z ->
  exists (dates : list datetime) (plan_data : list PlanRow) (g' : rng),
    planner stage tmin tmax area_m2 clock g = Ok (dates, plan_data, g')
    /\ length dates = 7%nat
    /\ length plan_data = 7%nat
    /\ (forall i, (i < 7)%nat ->
        exists d row,
          dates !! i = Some d /\ plan_data !! i = Some row
          /\ toordinal d = (day0 + Z.of_nat i)%Z
          /\ row_date row = strftime_dmY d)
    /\ (forall i d d',
        dates !! i = Some d -> dates !! S i = Some d' ->
        toordinal d' = (toordinal d + 1)%Z).
Proof.
  intros Hstage Hday Hrange.
  apply elem_of_dom in Hstage as [kc Hkc].
  do 3 eexists. split.
  { apply (planner_same_day stage kc); eassumption. }
  split; [reflexivity |]. split; [reflexivity |]. split.
  - intros i Hi.
    destruct (seven_days_lookup (plan_row kc tmin tmax area_m2 g)
                                clock day0 i Hi) as [Hd Hrow].
    exists (plan_day clock day0 i). eexists.
    split; [exact Hd |]. split; [exact Hrow |]. split; reflexivity.
  - intros i d d' Hd Hd'.
    assert (i < 6)%nat as Hi.
    { apply lookup_lt_Some in Hd'. cbn in Hd'. lia. }
    destruct (seven_days_lookup (plan_row kc tmin tmax area_m2 g)
                                clock day0 i ltac:(lia)) as [Hd0 _].
    destruct (seven_days_lookup (plan_row kc tmin tmax area_m2 g)
                                clock day0 (S i) ltac:(lia)) as [Hd1 _].
    rewrite Hd0 in Hd. rewrite Hd1 in Hd'.
    injection Hd as <-. injection Hd' as <-.
    cbn [plan_day toordinal]. lia.
Qed.

(** C4, amended: in a run that reaches the planner with generator state
    [g1], the row of every day [i] holds
    round(kc * eto_i, 2) and round(kc * eto_i * area_m2, 2), where [eto_i]
    is computed from that day's perturbed temperatures only.  No
    moisture-deficit term enters, and a run that differs only in the soil
    type, the crop and the moisture reading has the same plan. *)
Theorem plan_rows_crop_demand_only
    (inp : Inputs) (clock : nat -> datetime) (day0 : Z)
    (g g1 : rng) (vwc kc : R) :
  read_vwc (in_mode inp) g = Ok (vwc, g1) ->
  in_soil_type inp ∈ dom SOIL_TARGET_RANGE ->
  KC_STAGE !! in_stage inp = Some kc ->
  (forall i, (i < 7)%nat -> toordinal (clock i) = day0) ->
  (0 < day0 /\ day0 + 6 <= MAXORDINAL)%Z ->
  let area_m2 := area_to_sq_m (in_area_value inp) (in_area_unit inp) in
  let eto (i : nat) :=
    Rmax 0 (hargreaves_term (in_tmin inp + jitter g1 (2 * i))
                            (in_tmax inp + jitter g1 (2 * i + 1))) in
  (exists rows,
     plan_of (script inp clock g) = Ok rows
     /\ forall i, (i < 7)%nat ->
        exists row,
          rows !! i = Some row
          /\ row_etc_mm row = py_round2 (kc * eto i)
          /\ row_liters row = py_round2 (kc * eto i * area_m2))
  /\ (forall (inp' : Inputs) (g' : rng) (vwc' : R),
        same_planner_inputs inp inp' ->
        in_soil_type inp' ∈ dom SOIL_TARGET_RANGE ->
        read_vwc (in_mode inp') g' = Ok (vwc', g1) ->
        plan_of (script inp' clock g') = plan_of (script inp clock g)).
Proof.
  intros Hread Hsoil Hkc Hday Hrange area_m2 eto.
  assert (in_stage inp ∈ dom ROOT_DEPTH_M) as Hstage.
  { rewrite <- dom_KC_STAGE. apply elem_of_dom. eauto. }
  pose proof (plan_of_script_planner inp clock g g1 vwc Hread Hsoil Hstage)
    as Hplan.
  split.
  - rewrite Hplan.
    rewrite (planner_same_day _ kc _ _ _ clock day0 g1 Hkc Hday Hrange).
    eexists. split; [reflexivity |].
    intros i Hi. cbn [fst snd].
    destruct (seven_days_lookup
                (plan_row kc (in_tmin inp) (in_tmax inp) area_m2 g1)
                clock day0 i Hi) as [_ Hrow].
    eexists. split; [exact Hrow |]. split; reflexivity.
  - intros inp' g' vwc' (Hst & Htmin & Htmax & Harea) Hsoil' Hread'.
    rewrite Hplan.
    rewrite (plan_of_script_planner inp' clock g' g1 vwc' Hread' Hsoil')
      by (rewrite <- Hst; exact Hstage).
    rewrite <- Hst, <- Htmin, <- Htmax, <- Harea. reflexivity.
Qed.

(** C7: two runs in simulation mode with the same seed and the same
    stage, base temperatures, area and clock produce the same plan rows
    (dates, ETc, litres), whatever state the generator was left in before
    each run. *)
Theorem plan_reproducible_for_seed
    (inp1 inp2 : Inputs) (seed : Z) (clock : nat -> datetime) (g1 g2 : rng) :
  in_mode inp1 = Simulate seed ->
  in_mode inp2 = Simulate seed ->
  same_planner_inputs inp1 inp2 ->
  in_soil_type inp1 ∈ dom SOIL_TARGET_RANGE ->
  in_soil_type inp2 ∈ dom SOIL_TARGET_RANGE ->
  plan_of (script inp1 clock g1) = plan_of (script inp2 clock g2).
Proof.
  intros Hmode1 Hmode2 (Hst & Htmin & Htmax & Harea) Hsoil1 Hsoil2.
  destruct (read_vwc (Simulate seed) g1) as [[vwc g] | e] eqn:Hread.
  - assert (read_vwc (in_mode inp1) g1 = Ok (vwc, g)) as Hread1
      by (rewrite Hmode1; exact Hread).
    assert (read_vwc (in_mode inp2) g2 = Ok (vwc, g)) as Hread2
      by (rewrite Hmode2, (read_vwc_simulate seed g2 g1); exact Hread).
    destruct (decide (in_stage inp1 ∈ dom ROOT_DEPTH_M)) as [Hstage | Hstage].
    + rewrite (plan_of_script_planner _ _ _ _ _ Hread1 Hsoil1 Hstage).
      rewrite (plan_of_script_planner _ _ _ _ _ Hread2 Hsoil2)
        by (rewrite <- Hst; exact Hstage).
      rewrite <- Hst, <- Htmin, <- Htmax, <- Harea. reflexivity.
    + rewrite (plan_of_script_bad_stage _ _ _ _ _ Hread1 Hsoil1 Hstage).
      rewrite (plan_of_script_bad_stage _ _ _ _ _ Hread2 Hsoil2)
        by (rewrite <- Hst; exact Hstage).
      reflexivity.
  - rewrite (plan_of_script_read_raises inp1 clock g1 e)
      by (rewrite Hmode1; exact Hread).
    rewrite (plan_of_script_read_raises inp2 clock g2 e)
      by (rewrite Hmode2, (read_vwc_simulate seed g2 g1); exact Hread).
    reflexivity.
Qed.

End Planner.

(** ** Concrete runs *)

Lemma counting_day_eto :
  day_eto (RS := counting_random) 20.5 20.5 0%nat 0%nat = 0.8809.
Proof.
  unfold day_eto, jitter, hargreaves_term. cbn.
  replace (20.5 + 1 / 2 - (20.5 + -1 / 2)) with 1 by lra.
  rewrite (Rmax_left 1 0) by lra. rewrite sqrt_1.
  rewrite Rmax_right by lra. lra.
Qed.

Lemma today_in_range : (0 < 739924 /\ 739924 + 6 <= MAXORDINAL)%Z.
Proof. unfold MAXORDINAL. lia. Qed.

(** C4 as stated fails on the rounding of the loop body: with a minimum
    and a maximum of 20 and 21 degrees on day 0, a crop coefficient of 0.6
    and one square metre, kc * eto * area is 0.52854 and the row holds
    0.53. *)
Lemma plan_row_liters_rounded :
  exists rows row,
    plan_of (script (RS := counting_random)
               (mk_inputs "टमाटर" "दोमट (Loam)" 1 "m²" "शुरुआती अवस्था"
                          20.5 20.5 (Manual 0.16))
               (frozen_clock (mk_datetime 739924 0)) 0%nat)
    = Ok rows
    /\ rows !! 0%nat = Some row
    /\ KC_STAGE !! "शुरुआती अवस्था" = Some 0.6
    /\ 0.6 * day_eto (RS := counting_random) 20.5 20.5 0%nat 0%nat
       * area_to_sq_m 1 "m²" = 0.52854
    /\ row_liters row = 0.53
    /\ row_liters row
       <> 0.6 * day_eto (RS := counting_random) 20.5 20.5 0%nat 0%nat
          * area_to_sq_m 1 "m²".
Proof.
  assert (0.6 * day_eto (RS := counting_random) 20.5 20.5 0%nat 0%nat
          * area_to_sq_m 1 "m²" = 0.52854) as Hexact.
  { rewrite counting_day_eto. change (area_to_sq_m 1 "m²") with 1. lra. }
  do 2 eexists. split.
  { rewrite (plan_of_script_planner (RS := counting_random) _ _ 0%nat 0%nat 0.16).
    - cbn [in_stage in_tmin in_tmax in_area_value in_area_unit].
      rewrite (planner_same_day (RS := counting_random)
                 "शुरुआती अवस्था" 0.6 _ _ _ _ 739924).
      + reflexivity.
      + reflexivity.
      + intros i _. reflexivity.
      + exact today_in_range.
    - reflexivity.
    - exact loam_in_table.
    - key_in_table. }
  split; [reflexivity |]. split; [reflexivity |]. split; [exact Hexact |].
  cbn [plan_row row_liters]. rewrite Hexact.
  assert (py_round2 0.52854 = 0.53) as Hround by apply py_round2_samples.
  rewrite Hround. split; lra.
Qed.

Lemma planner_seven_consecutive_dates_witness :
  "वनस्पति अवस्था" ∈ dom KC_STAGE
  /\ (forall i, (i < 7)%nat ->
      toordinal (frozen_clock (mk_datetime 739924 0) i) = 739924%Z)
  /\ (0 < 739924 /\ 739924 + 6 <= MAXORDINAL)%Z
  /\ exists (dates : list datetime) (plan_data : list PlanRow) (g' : nat),
       planner (RS := counting_random) "वनस्पति अवस्था" 22 33 1000
               (frozen_clock (mk_datetime 739924 0)) 0%nat
       = Ok (dates, plan_data, g')
       /\ length dates = 7%nat
       /\ length plan_data = 7%nat
       /\ (forall i, (i < 7)%nat ->
           exists d row,
             dates !! i = Some d /\ plan_data !! i = Some row
             /\ toordinal d = (739924 + Z.of_nat i)%Z
             /\ row_date row = strftime_dmY d)
       /\ (forall i d d',
           dates !! i = Some d -> dates !! S i = Some d' ->
           toordinal d' = (toordinal d + 1)%Z).
Proof.
  split; [exact vegetative_in_table |].
  split; [intros i _; reflexivity |].
  split; [exact today_in_range |].
  apply (planner_seven_consecutive_dates (RS := counting_random)).
  - exact vegetative_in_table.
  - intros i _. reflexivity.
  - exact today_in_range.
Defined.

Lemma plan_rows_crop_demand_only_witness :
  (exists rows,
     plan_of (script (RS := counting_random)
                (mk_inputs "टमाटर" "दोमट (Loam)" 0.25 "एकड़" "वनस्पति अवस्था"
                           22 33 (Manual 0.16))
                (frozen_clock (mk_datetime 739924 0)) 0%nat)
     = Ok rows
     /\ forall i, (i < 7)%nat ->
        exists row,
          rows !! i = Some row
          /\ row_etc_mm row
             = py_round2
                 (0.95 * Rmax 0 (hargreaves_term
                                   (22 + jitter (RS := counting_random)
                                                0%nat (2 * i))
                                   (33 + jitter (RS := counting_random)
                                                0%nat (2 * i + 1))))
          /\ row_liters row
             = py_round2
                 (0.95 * Rmax 0 (hargreaves_term
                                   (22 + jitter (RS := counting_random)
                                                0%nat (2 * i))
                                   (33 + jitter (RS := counting_random)
                                                0%nat (2 * i + 1)))
                  * area_to_sq_m 0.25 "एकड़"))
  /\ plan_of (script (RS := counting_random)
                (mk_inputs "गेहूँ" "चिकनी (Clay)" 0.25 "एकड़" "वनस्पति अवस्था"
                           22 33 (Manual 0.4))
                (frozen_clock (mk_datetime 739924 0)) 0%nat)
     = plan_of (script (RS := counting_random)
                  (mk_inputs "टमाटर" "दोमट (Loam)" 0.25 "एकड़" "वनस्पति अवस्था"
                             22 33 (Manual 0.16))
                  (frozen_clock (mk_datetime 739924 0)) 0%nat).
Proof.
  pose proof
    (plan_rows_crop_demand_only (RS := counting_random)
       (mk_inputs "टमाटर" "दोमट (Loam)" 0.25 "एकड़" "वनस्पति अवस्था"
                  22 33 (Manual 0.16))
       (frozen_clock (mk_datetime 739924 0)) 739924 0%nat 0%nat 0.16 0.95
       eq_refl loam_in_table eq_refl (fun i _ => eq_refl) today_in_range)
    as [Hrows Hsame].
  split; [exact Hrows |].
  apply (Hsame (mk_inputs "गेहूँ" "चिकनी (Clay)" 0.25 "एकड़" "वनस्पति अवस्था"
                          22 33 (Manual 0.4)) 0%nat 0.4).
  - repeat split.
  - exact clay_in_table.
  - reflexivity.
Defined.

Lemma plan_reproducible_for_seed_witness :
  plan_of (script (RS := counting_random)
             (mk_inputs "टमाटर" "दोमट (Loam)" 0.25 "एकड़" "वनस्पति अवस्था"
                        22 33 (Simulate 42))
             (frozen_clock (mk_datetime 739924 0)) 0%nat)
  = plan_of (script (RS := counting_random)
               (mk_inputs "गेहूँ" "चिकनी (Clay)" 0.25 "एकड़" "वनस्पति अवस्था"
                          22 33 (Simulate 42))
               (frozen_clock (mk_datetime 739924 0)) 5%nat)
  /\ exists rows,
       plan_of (script (RS := counting_random)
                  (mk_inputs "टमाटर" "दोमट (Loam)" 0.25 "एकड़" "वनस्पति अवस्था"
                             22 33 (Simulate 42))
                  (frozen_clock (mk_datetime 739924 0)) 0%nat)
       = Ok rows
       /\ length rows = 7%nat.
Proof.
  split.
  - apply (plan_reproducible_for_seed (RS := counting_random) _ _ 42).
    + reflexivity.
    + reflexivity.
    + repeat split.
    + exact loam_in_table.
    + exact clay_in_table.
  - rewrite (plan_of_script_planner (RS := counting_random) _ _ 0%nat 43%nat
               (np_clip 0.16 0 0.6)).
    + cbn [in_stage in_tmin in_tmax in_area_value in_area_unit].
      rewrite (planner_same_day (RS := counting_random)
                 "वनस्पति अवस्था" 0.95 _ _ _ _ 739924).
      * eexists. split; reflexivity.
      * reflexivity.
      * intros i _. reflexivity.
      * exact today_in_range.
    + reflexivity.
    + exact loam_in_table.
    + rewrite <- dom_KC_STAGE. exact vegetative_in_table.
Defined.

(** * Further properties of the code *)

(** ** [area_to_sq_m] *)

Lemma area_to_sq_m_scale (unit : string) :
  exists k, 1 <= k /\ forall w, area_to_sq_m w unit = w * k.
Proof.
  unfold area_to_sq_m.
  destruct (String.eqb unit "एकड़");
    [exists 4046.8564224; split; [lra | reflexivity] |].
  destruct (String.eqb unit "हेक्टेयर");
    [exists 10000.0; split; [lra | reflexivity] |].
  destruct (String.eqb unit "m²"); exists 1; split; intros; lra.
Qed.

(** X1: whatever the unit string, [area_to_sq_m] is non-decreasing in the
    value, keeps a value that is not negative not negative, and never
    shrinks it. *)
Theorem area_to_sq_m_monotone (v w : R) (unit : string) :
  v <= w ->
  area_to_sq_m v unit <= area_to_sq_m w unit
  /\ (0 <= v -> v <= area_to_sq_m v unit).
Proof.
  intros Hvw. destruct (area_to_sq_m_scale unit) as (k & Hk & Hscale).
  rewrite !Hscale. split; [nra |]. intros Hv. nra.
Qed.

Lemma area_to_sq_m_monotone_witness :
  0.25 <= 2
  /\ area_to_sq_m 0.25 "हेक्टेयर" <= area_to_sq_m 2 "हेक्टेयर"
  /\ (0 <= 0.25 -> 0.25 <= area_to_sq_m 0.25 "हेक्टेयर").
Proof.
  split; [lra |]. apply area_to_sq_m_monotone. lra.
Defined.

(** ** [simple_eto_mm_per_day] *)

(** X2: for inverted or equal temperatures (tmax <= tmin) the reference
    evapotranspiration is 0, not an error. *)
Theorem simple_eto_inverted_temps (tmin tmax : R) :
  tmax <= tmin -> simple_eto_mm_per_day tmin tmax = Ok 0.
Proof.
  intros Hinv. rewrite simple_eto_mm_per_day_eq. unfold hargreaves_term.
  rewrite (Rmax_right (tmax - tmin) 0) by lra. rewrite sqrt_0.
  rewrite Rmax_left by lra. reflexivity.
Qed.

Lemma simple_eto_inverted_temps_witness :
  20 <= 35 /\ simple_eto_mm_per_day 35 20 = Ok 0.
Proof.
  split; [lra |]. apply simple_eto_inverted_temps. lra.
Defined.

(** X3: for tmin < tmax and a mean temperature above -17.8 degrees the
    outer clamp is idle: the result is the Hargreaves term itself, and it
    is strictly positive. *)
Theorem simple_eto_positive (tmin tmax : R) :
  tmin < tmax ->
  -17.8 < (tmin + tmax) / 2 ->
  simple_eto_mm_per_day tmin tmax
  = Ok (0.0023 * ((tmin + tmax) / 2 + 17.8) * sqrt (tmax - tmin) * 10)
  /\ 0 < 0.0023 * ((tmin + tmax) / 2 + 17.8) * sqrt (tmax - tmin) * 10.
Proof.
  intros Hlt Hmean.
  assert (0 < sqrt (tmax - tmin)) as Hsqrt by (apply sqrt_lt_R0; lra).
  assert (0 < 0.0023 * ((tmin + tmax) / 2 + 17.8) * sqrt (tmax - tmin) * 10)
    as Hpos.
  { apply Rmult_lt_0_compat; [| lra].
    apply Rmult_lt_0_compat; [lra | exact Hsqrt]. }
  split; [| exact Hpos].
  rewrite simple_eto_mm_per_day_eq. unfold hargreaves_term.
  rewrite (Rmax_left (tmax - tmin) 0) by lra.
  rewrite Rmax_right by lra. reflexivity.
Qed.

Lemma simple_eto_positive_witness :
  22 < 33
  /\ -17.8 < (22 + 33) / 2
  /\ simple_eto_mm_per_day 22 33
     = Ok (0.0023 * ((22 + 33) / 2 + 17.8) * sqrt (33 - 22) * 10)
  /\ 0 < 0.0023 * ((22 + 33) / 2 + 17.8) * sqrt (33 - 22) * 10.
Proof.
  split; [lra |]. split; [lra |]. apply simple_eto_positive; lra.
Defined.

(** X4: with the minimum fixed and a mean that stays at or above -17.8
    degrees, a higher maximum never lowers the reference
    evapotranspiration. *)
Theorem simple_eto_monotone_in_tmax (tmin tmax1 tmax2 : R) :
  tmin <= tmax1 ->
  tmax1 <= tmax2 ->
  -17.8 <= (tmin + tmax1) / 2 ->
  exists eto1 eto2,
    simple_eto_mm_per_day tmin tmax1 = Ok eto1
    /\ simple_eto_mm_per_day tmin tmax2 = Ok eto2
    /\ eto1 <= eto2.
Proof.
  intros Hlo Hle Hmean. rewrite !simple_eto_mm_per_day_eq.
  do 2 eexists. split; [reflexivity |]. split; [reflexivity |].
  unfold hargreaves_term.
  rewrite (Rmax_left (tmax1 - tmin) 0), (Rmax_left (tmax2 - tmin) 0) by lra.
  assert (0 <= sqrt (tmax1 - tmin)) as Hs1 by apply sqrt_pos.
  assert (sqrt (tmax1 - tmin) <= sqrt (tmax2 - tmin)) as Hs
    by (apply sqrt_le_1_alt; lra).
  apply Rle_max_compat_l. nra.
Qed.

Lemma simple_eto_monotone_in_tmax_witness :
  22 <= 30 /\ 30 <= 33 /\ -17.8 <= (22 + 30) / 2
  /\ exists eto1 eto2,
       simple_eto_mm_per_day 22 30 = Ok eto1
       /\ simple_eto_mm_per_day 22 33 = Ok eto2
       /\ eto1 <= eto2.
Proof.
  split; [lra |]. split; [lra |]. split; [lra |].
  apply simple_eto_monotone_in_tmax; lra.
Defined.

(** ** [irrigation_need_liters] *)

Lemma deficit_frac_antitone (target_low vwc1 vwc2 : R) :
  vwc1 <= vwc2 ->
  Rmax (target_low - vwc2) 0 / Rmax target_low 1e-6
  <= Rmax (target_low - vwc1) 0 / Rmax target_low 1e-6.
Proof.
  intros Hle. pose proof (deficit_denominator_pos target_low) as Hden.
  apply Rmult_le_compat_r; [apply Rlt_le, Rinv_0_lt_compat; exact Hden |].
  apply Rle_max_compat_r. lra.
Qed.

(** X5: with the other inputs fixed, a larger area never lowers the litres,
    and the area changes neither the deficit nor the crop
    evapotranspiration. *)
Theorem liters_monotone_in_area
    (soil stage : string) (vwc target_low area1 area2 tmin tmax : R) :
  soil ∈ dom SOIL_RAW_MM_PER_M ->
  stage ∈ dom ROOT_DEPTH_M ->
  area1 <= area2 ->
  exists liters1 liters2 deficit_mm etc_mm,
    irrigation_need_liters soil stage vwc target_low area1 tmin tmax
    = Ok (liters1, deficit_mm, etc_mm)
    /\ irrigation_need_liters soil stage vwc target_low area2 tmin tmax
       = Ok (liters2, deficit_mm, etc_mm)
    /\ liters1 <= liters2.
Proof.
  intros Hsoil Hstage Harea.
  destruct (soil_lookup soil Hsoil) as (raw & Hraw & _).
  destruct (stage_lookups stage Hstage) as (root & kc & Hroot & Hkc & _).
  do 4 eexists.
  split; [apply irrigation_need_liters_eq; eassumption |].
  split; [apply irrigation_need_liters_eq; eassumption |].
  apply Rmult_le_compat_l; [apply Rmax_l | exact Harea].
Qed.

Lemma liters_monotone_in_area_witness :
  exists liters1 liters2 deficit_mm etc_mm,
    irrigation_need_liters "दोमट (Loam)" "वनस्पति अवस्था" 0.16 0.18 500 22 33
    = Ok (liters1, deficit_mm, etc_mm)
    /\ irrigation_need_liters "दोमट (Loam)" "वनस्पति अवस्था" 0.16 0.18 1000 22 33
       = Ok (liters2, deficit_mm, etc_mm)
    /\ liters1 <= liters2.
Proof.
  apply liters_monotone_in_area; [key_in_table | key_in_table | lra].
Defined.

(** X6: when the soil is at least as moist as the lower target
    (vwc >= target_low) the deficit is 0 and the litres are the crop
    evapotranspiration times the area. *)
Theorem no_deficit_when_moist
    (soil stage : string) (vwc target_low area_m2 tmin tmax : R) :
  soil ∈ dom SOIL_RAW_MM_PER_M ->
  stage ∈ dom ROOT_DEPTH_M ->
  target_low <= vwc ->
  exists etc_mm,
    irrigation_need_liters soil stage vwc target_low area_m2 tmin tmax
    = Ok (etc_mm * area_m2, 0, etc_mm)
    /\ 0 <= etc_mm.
Proof.
  intros Hsoil Hstage Hmoist.
  destruct (soil_lookup soil Hsoil) as (raw & Hraw & _).
  destruct (stage_lookups stage Hstage) as (root & kc & Hroot & Hkc & _ & Hk).
  exists (kc * Rmax 0 (hargreaves_term tmin tmax)).
  split; [| apply etc_mm_nonneg; exact Hk].
  rewrite (irrigation_need_liters_eq _ _ _ _ _ _ _ _ _ _ Hraw Hroot Hkc).
  pose proof (etc_mm_nonneg kc tmin tmax Hk) as Hetc.
  rewrite (Rmax_right (target_low - vwc) 0) by lra.
  replace (0 / Rmax target_low 1e-6 * IZR raw * root) with 0
    by (unfold Rdiv; ring).
  rewrite Rplus_0_l. rewrite (Rmax_right 0 _) by exact Hetc.
  reflexivity.
Qed.

Lemma no_deficit_when_moist_witness :
  0.25 <= 0.3
  /\ exists etc_mm,
       irrigation_need_liters "चिकनी (Clay)" "फल आने की अवस्था" 0.3 0.25 1000 22 33
       = Ok (etc_mm * 1000, 0, etc_mm)
       /\ 0 <= etc_mm.
Proof.
  split; [lra |].
  apply no_deficit_when_moist; [key_in_table | key_in_table | lra].
Defined.

(** X7: with the other inputs fixed and an area that is not negative, a
    moister soil never raises the deficit or the litres. *)
Theorem liters_antitone_in_vwc
    (soil stage : string) (vwc1 vwc2 target_low area_m2 tmin tmax : R) :
  soil ∈ dom SOIL_RAW_MM_PER_M ->
  stage ∈ dom ROOT_DEPTH_M ->
  vwc1 <= vwc2 ->
  0 <= area_m2 ->
  exists liters1 liters2 deficit1 deficit2 etc_mm,
    irrigation_need_liters soil stage vwc1 target_low area_m2 tmin tmax
    = Ok (liters1, deficit1, etc_mm)
    /\ irrigation_need_liters soil stage vwc2 target_low area_m2 tmin tmax
       = Ok (liters2, deficit2, etc_mm)
    /\ deficit2 <= deficit1
    /\ liters2 <= liters1.
Proof.
  intros Hsoil Hstage Hvwc Harea.
  destruct (soil_lookup soil Hsoil) as (raw & Hraw & Hraw_pos).
  destruct (stage_lookups stage Hstage) as (root & kc & Hroot & Hkc & Hr & _).
  do 5 eexists.
  split; [apply irrigation_need_liters_eq; eassumption |].
  split; [apply irrigation_need_liters_eq; eassumption |].
  pose proof (deficit_frac_antitone target_low vwc1 vwc2 Hvwc) as Hfrac.
  assert (Rmax (target_low - vwc2) 0 / Rmax target_low 1e-6 * IZR raw * root
          <= Rmax (target_low - vwc1) 0 / Rmax target_low 1e-6 * IZR raw * root)
    as Hdef.
  { apply Rmult_le_compat_r; [lra |].
    apply Rmult_le_compat_r; [lra | exact Hfrac]. }
  split; [exact Hdef |].
  apply Rmult_le_compat_r; [exact Harea |].
  apply Rle_max_compat_l. lra.
Qed.

Lemma liters_antitone_in_vwc_witness :
  exists liters1 liters2 deficit1 deficit2 etc_mm,
    irrigation_need_liters "रेतीली (Sandy)" "शुरुआती अवस्था" 0.05 0.10 1000 22 33
    = Ok (liters1, deficit1, etc_mm)
    /\ irrigation_need_liters "रेतीली (Sandy)" "शुरुआती अवस्था" 0.08 0.10 1000 22 33
       = Ok (liters2, deficit2, etc_mm)
    /\ deficit2 <= deficit1
    /\ liters2 <= liters1.
Proof.
  apply liters_antitone_in_vwc; [key_in_table | key_in_table | lra | lra].
Defined.

(** X8: for a moisture reading that is not negative and a lower target of
    at least 1e-6, the deficit fraction is at most 1, so the deficit is at
    most the readily available water of the root zone,
    raw_mm_per_m * root_m. *)
Theorem deficit_mm_bounded
    (soil stage : string) (raw : Z) (root : R)
    (vwc target_low area_m2 tmin tmax : R) :
  SOIL_RAW_MM_PER_M !! soil = Some raw ->
  ROOT_DEPTH_M !! stage = Some root ->
  0 <= vwc ->
  1e-6 <= target_low ->
  exists liters deficit_mm etc_mm,
    irrigation_need_liters soil stage vwc target_low area_m2 tmin tmax
    = Ok (liters, deficit_mm, etc_mm)
    /\ 0 <= deficit_mm <= IZR raw * root.
Proof.
  intros Hraw Hroot Hvwc Hlow.
  pose proof (SOIL_RAW_MM_PER_M_pos _ _ Hraw) as Hraw_pos.
  pose proof (ROOT_DEPTH_M_pos _ _ Hroot) as Hroot_pos.
  destruct (KC_STAGE_defined stage) as [kc Hkc].
  { apply elem_of_dom. eauto. }
  do 3 eexists.
  split; [apply irrigation_need_liters_eq; eassumption |].
  split; [apply deficit_mm_nonneg; assumption |].
  rewrite (Rmax_left target_low 1e-6) by lra.
  assert (Rmax (target_low - vwc) 0 / target_low <= 1) as Hfrac.
  { replace 1 with (target_low * / target_low) by (field; lra).
    apply Rmult_le_compat_r; [apply Rlt_le, Rinv_0_lt_compat; lra |].
    apply Rmax_lub; lra. }
  rewrite Rmult_assoc.
  rewrite <- (Rmult_1_l (IZR raw * root)) at 2.
  apply Rmult_le_compat_r; [nra | exact Hfrac].
Qed.

Lemma deficit_mm_bounded_witness :
  0 <= 0.05
  /\ 1e-6 <= 0.18
  /\ exists liters deficit_mm etc_mm,
       irrigation_need_liters "दोमट (Loam)" "फूल आने की अवस्था" 0.05 0.18 1000 22 33
       = Ok (liters, deficit_mm, etc_mm)
       /\ 0 <= deficit_mm <= IZR 90 * 0.8.
Proof.
  split; [lra |]. split; [lra |].
  apply (deficit_mm_bounded "दोमट (Loam)" "फूल आने की अवस्था" 90 0.8);
    [reflexivity | reflexivity | lra | lra].
Defined.

(** ** Rounding to two decimals *)

Lemma round_half_even_near (x : R) :
  IZR (round_half_even x) - 1 / 2 <= x <= IZR (round_half_even x) + 1 / 2.
Proof.
  unfold round_half_even.
  destruct (base_Int_part x) as [Hlo Hhi].
  destruct (Rlt_dec (x - IZR (Int_part x)) (1 / 2)) as [Hlt | Hge].
  - lra.
  - destruct (Rlt_dec (1 / 2) (x - IZR (Int_part x))) as [Hgt | Hle].
    + rewrite plus_IZR. lra.
    + destruct (Z.even (Int_part x)); [| rewrite plus_IZR]; lra.
Qed.

Lemma round_half_even_nonneg (x : R) : 0 <= x -> (0 <= round_half_even x)%Z.
Proof.
  intros Hx. pose proof (round_half_even_near x) as [_ Hhi].
  apply Z.lt_succ_r. apply lt_IZR. rewrite succ_IZR. lra.
Qed.

Lemma py_round2_near (x : R) : Rabs (py_round2 x - x) <= 0.005.
Proof.
  unfold py_round2. pose proof (round_half_even_near (x * 100)) as [Hlo Hhi].
  apply Rabs_le. lra.
Qed.

Lemma py_round2_nonneg (x : R) : 0 <= x -> 0 <= py_round2 x.
Proof.
  intros Hx. unfold py_round2.
  assert (0 <= IZR (round_half_even (x * 100))) as Hz.
  { apply IZR_le. apply round_half_even_nonneg. lra. }
  lra.
Qed.

(** ** The whole script *)

Lemma seven_lookup {A B : Type} (h : nat -> A) (f : nat -> A -> B) (i : nat) :
  (i < 7)%nat ->
  map h (seq 0 7) !! i = Some (h i)
  /\ imap f (map h (seq 0 7)) !! i = Some (f i (h i)).
Proof.
  intros Hi.
  do 7 (destruct i as [| i]; [split; reflexivity |]). lia.
Qed.

Lemma sample_clock_in_range : clock_in_range sample_clock.
Proof. intros i Hi. unfold sample_clock, frozen_clock, MAXORDINAL. cbn. lia. Qed.

Section WholeScript.

Context {rng : Type} {RS : RandomState rng}.

Lemma planner_in_range (stage : string) (kc tmin tmax area_m2 : R)
    (clock : nat -> datetime) (g : rng) :
  KC_STAGE !! stage = Some kc ->
  clock_in_range clock ->
  planner stage tmin tmax area_m2 clock g
  = Ok (map (reading_date clock) (seq 0 7),
        imap (plan_row kc tmin tmax area_m2 g)
             (map (reading_date clock) (seq 0 7)),
        after_draws 14 g).
Proof.
  intros Hkc Hclock. unfold planner.
  rewrite (plan_dates_in_range clock Hclock). cbn [mbind result_bind].
  rewrite (plan_loop_rows stage kc) by exact Hkc. reflexivity.
Qed.

Lemma read_vwc_accepted (mode : Mode) (g : rng) :
  seed_accepted mode ->
  exists vwc g1,
    read_vwc mode g = Ok (vwc, g1)
    /\ match mode with
       | Manual v => vwc = v /\ g1 = g
       | Simulate seed =>
           0 <= vwc <= 0.6 /\ g1 = snd (normal 0.16 0.03 (seeded seed))
       end.
Proof.
  destruct mode as [v | seed]; intros Hseed.
  - exists v, g. repeat split.
  - cbn in Hseed. destruct Hseed as [Hlo Hhi].
    apply Z.leb_le in Hlo. apply Z.ltb_lt in Hhi.
    unfold read_vwc, np_random_seed. rewrite Hlo, Hhi.
    cbn [andb mbind result_bind].
    destruct (normal 0.16 0.03 (seeded seed)) as [x g1].
    exists (np_clip x 0 0.6), g1. split; [reflexivity |].
    split; [| reflexivity]. unfold np_clip. split.
    + apply Rmin_glb; [apply Rmax_r | lra].
    + apply Rmin_r.
Qed.

(** What a run computes, step by step, when nothing raises. *)
Lemma script_eq (inp : Inputs) (clock : nat -> datetime) (g g1 : rng)
    (vwc low high root kc : R) (raw : Z) :
  read_vwc (in_mode inp) g = Ok (vwc, g1) ->
  SOIL_TARGET_RANGE !! in_soil_type inp = Some (low, high) ->
  SOIL_RAW_MM_PER_M !! in_soil_type inp = Some raw ->
  ROOT_DEPTH_M !! in_stage inp = Some root ->
  KC_STAGE !! in_stage inp = Some kc ->
  clock_in_range clock ->
  let area_m2 := area_to_sq_m (in_area_value inp) (in_area_unit inp) in
  let deficit_mm :=
    Rmax (low - vwc) 0 / Rmax low 1e-6 * IZR raw * root in
  let etc_mm := kc * Rmax 0 (hargreaves_term (in_tmin inp) (in_tmax inp)) in
  script inp clock g
  = Ok (mk_output vwc area_m2 low high
          (Rmax 0 (deficit_mm + etc_mm) * area_m2) deficit_mm etc_mm
          (classify vwc low high)
          (map (reading_date clock) (seq 0 7))
          (imap (plan_row kc (in_tmin inp) (in_tmax inp) area_m2 g1)
                (map (reading_date clock) (seq 0 7))),
        after_draws 14 g1).
Proof.
  intros Hread Hrange Hraw Hroot Hkc Hclock. cbv zeta. unfold script.
  rewrite Hread. cbn [mbind result_bind].
  rewrite (dict_get_Some _ _ _ Hrange). cbn [mbind result_bind].
  rewrite (irrigation_need_liters_eq _ _ _ _ _ _ _ _ _ _ Hraw Hroot Hkc).
  cbn [mbind result_bind].
  rewrite (planner_in_range _ kc) by assumption.
  reflexivity.
Qed.

(** The steps that a run went through when it returned. *)
Lemma script_inv (inp : Inputs) (clock : nat -> datetime) (g g' : rng)
    (out : Output) :
  script inp clock g = Ok (out, g') ->
  exists vwc g1 low high raw root kc dates rows,
    read_vwc (in_mode inp) g = Ok (vwc, g1)
    /\ SOIL_TARGET_RANGE !! in_soil_type inp = Some (low, high)
    /\ SOIL_RAW_MM_PER_M !! in_soil_type inp = Some raw
    /\ ROOT_DEPTH_M !! in_stage inp = Some root
    /\ KC_STAGE !! in_stage inp = Some kc
    /\ planner (in_stage inp) (in_tmin inp) (in_tmax inp)
               (area_to_sq_m (in_area_value inp) (in_area_unit inp)) clock g1
       = Ok (dates, rows, g')
    /\ out
       = mk_output vwc (area_to_sq_m (in_area_value inp) (in_area_unit inp))
           low high
           (Rmax 0 (Rmax (low - vwc) 0 / Rmax low 1e-6 * IZR raw * root
                    + kc * Rmax 0 (hargreaves_term (in_tmin inp) (in_tmax inp)))
            * area_to_sq_m (in_area_value inp) (in_area_unit inp))
           (Rmax (low - vwc) 0 / Rmax low 1e-6 * IZR raw * root)
           (kc * Rmax 0 (hargreaves_term (in_tmin inp) (in_tmax inp)))
           (classify vwc low high) dates rows.
Proof.
  unfold script. intros Hrun.
  destruct (read_vwc (in_mode inp) g) as [[vwc g1] | e]; [| discriminate Hrun].
  cbn [mbind result_bind] in Hrun. unfold dict_get at 1 in Hrun.
  destruct (SOIL_TARGET_RANGE !! in_soil_type inp) as [[low high] |] eqn:Hrange;
    [| discriminate Hrun].
  cbn [mbind result_bind] in Hrun.
  assert (in_soil_type inp ∈ dom SOIL_RAW_MM_PER_M) as Hsoil.
  { rewrite <- dom_SOIL_TARGET_RANGE. apply elem_of_dom. eauto. }
  destruct (soil_lookup _ Hsoil) as (raw & Hraw & _).
  destruct (decide (in_stage inp ∈ dom ROOT_DEPTH_M)) as [Hstage | Hstage].
  - destruct (stage_lookups _ Hstage) as (root & kc & Hroot & Hkc & _).
    rewrite (irrigation_need_liters_eq _ _ _ _ _ _ _ _ _ _ Hraw Hroot Hkc)
      in Hrun.
    cbn [mbind result_bind] in Hrun.
    destruct (planner _ _ _ _ _ _) as [[[dates rows] g2] | e] eqn:Hplan;
      [| discriminate Hrun].
    cbn [mbind result_bind] in Hrun. injection Hrun as <- <-.
    exists vwc, g1, low, high, raw, root, kc, dates, rows.
    repeat split; assumption.
  - rewrite irrigation_need_liters_KeyError in Hrun by (right; exact Hstage).
    discriminate Hrun.
Qed.

Lemma mapM_result_length {A B : Type} (f : A -> result B) (l : list A) :
  forall l', mapM f l = Ok l' -> length l' = length l.
Proof.
  induction l as [| x l IH]; intros l' Hl'.
  - injection Hl' as <-. reflexivity.
  - cbn in Hl'. destruct (f x) as [y | e]; [| discriminate Hl'].
    cbn in Hl'. destruct (mapM f l) as [ys | e]; [| discriminate Hl'].
    cbn in Hl'. injection Hl' as <-. cbn. f_equal. apply IH. reflexivity.
Qed.

Lemma planner_inv (stage : string) (kc tmin tmax area_m2 : R)
    (clock : nat -> datetime) (g g' : rng)
    (dates : list datetime) (rows : list PlanRow) :
  KC_STAGE !! stage = Some kc ->
  planner stage tmin tmax area_m2 clock g = Ok (dates, rows, g') ->
  length dates = 7%nat
  /\ rows = imap (plan_row kc tmin tmax area_m2 g) dates
  /\ g' = after_draws 14 g.
Proof.
  intros Hkc. unfold planner.
  destruct (plan_dates clock) as [ds | e] eqn:Hdates; [| discriminate].
  apply mapM_result_length in Hdates. cbn [mbind result_bind].
  rewrite (plan_loop_rows stage kc) by exact Hkc. cbn [mbind result_bind].
  intros Hrun. injection Hrun as <- <- <-.
  rewrite Hdates. repeat split; reflexivity.
Qed.

Lemma row_dates_imap (f : nat -> datetime -> PlanRow) (dates : list datetime) :
  (forall i d, row_date (f i d) = strftime_dmY d) ->
  map row_date (imap f dates) = map strftime_dmY dates.
Proof.
  revert f. induction dates as [| d dates IH]; intros f Hf.
  - reflexivity.
  - cbn. rewrite Hf. f_equal. apply IH. intros i d'. apply Hf.
Qed.

(** *** Properties of a run *)

(** X9: a simulated moisture reading with a seed in [0, 2^32) is drawn
    after reseeding, so it does not depend on the generator state before
    the run: one reading, clipped to [0, 0.6], and one generator state
    after it are the result from every prior state. *)
Theorem simulated_vwc_clipped (seed : Z) :
  (0 <= seed < 2 ^ 32)%Z ->
  exists vwc,
    0 <= vwc <= 0.6
    /\ forall g : rng,
         read_vwc (Simulate seed) g
         = Ok (vwc, snd (normal 0.16 0.03 (seeded seed))).
Proof.
  intros [Hlo Hhi].
  exists (np_clip (fst (normal 0.16 0.03 (seeded seed))) 0 0.6). split.
  - unfold np_clip. split.
    + apply Rmin_glb; [apply Rmax_r | lra].
    + apply Rmin_r.
  - intros g. unfold read_vwc, np_random_seed.
    apply Z.leb_le in Hlo. apply Z.ltb_lt in Hhi. rewrite Hlo, Hhi.
    cbn [andb mbind result_bind].
    destruct (normal 0.16 0.03 (seeded seed)) as [x g1]. reflexivity.
Qed.

(** X10: for a soil type offered by the form (a key of SOIL_TARGET_RANGE),
    a stage offered by the form (a key of ROOT_DEPTH_M), a seed that NumPy
    accepts and a clock within the range of [datetime], the script runs to
    its end without an exception, for all real area, temperatures and
    moisture, and its plan has seven dates and seven rows. *)
Theorem script_returns (inp : Inputs) (clock : nat -> datetime) (g : rng) :
  in_soil_type inp ∈ dom SOIL_TARGET_RANGE ->
  in_stage inp ∈ dom ROOT_DEPTH_M ->
  seed_accepted (in_mode inp) ->
  clock_in_range clock ->
  exists out g',
    script inp clock g = Ok (out, g')
    /\ length (out_dates out) = 7%nat
    /\ length (out_plan_data out) = 7%nat.
Proof.
  intros Hsoil Hstage Hseed Hclock.
  destruct (read_vwc_accepted _ g Hseed) as (vwc & g1 & Hread & _).
  pose proof Hsoil as Hsoil'. rewrite dom_SOIL_TARGET_RANGE in Hsoil'.
  apply elem_of_dom in Hsoil as [[low high] Hrange].
  destruct (soil_lookup _ Hsoil') as (raw & Hraw & _).
  destruct (stage_lookups _ Hstage) as (root & kc & Hroot & Hkc & _).
  do 2 eexists. split.
  - apply (script_eq inp clock g g1 vwc low high root kc raw); assumption.
  - split; reflexivity.
Qed.

(** X11: in a run that returns with an area value that is not negative
    (the form's minimum is 0), the area in square metres, the litres, the
    deficit and the crop evapotranspiration are all non-negative. *)
Theorem script_outputs_nonneg (inp : Inputs) (clock : nat -> datetime)
    (g g' : rng) (out : Output) :
  script inp clock g = Ok (out, g') ->
  0 <= in_area_value inp ->
  0 <= out_area_m2 out
  /\ 0 <= out_liters out
  /\ 0 <= out_deficit_mm out
  /\ 0 <= out_etc_mm out.
Proof.
  intros Hrun Harea.
  destruct (script_inv _ _ _ _ _ Hrun)
    as (vwc & g1 & low & high & raw & root & kc & dates & rows
        & _ & _ & Hraw & Hroot & Hkc & _ & ->).
  cbn [out_area_m2 out_liters out_deficit_mm out_etc_mm].
  assert (0 <= area_to_sq_m (in_area_value inp) (in_area_unit inp)) as Hm2.
  { destruct (area_to_sq_m_scale (in_area_unit inp)) as (k & Hk & ->). nra. }
  split; [exact Hm2 |].
  split; [apply Rmult_le_pos; [apply Rmax_l | exact Hm2] |].
  split.
  - apply deficit_mm_nonneg.
    + eapply SOIL_RAW_MM_PER_M_pos; eassumption.
    + eapply ROOT_DEPTH_M_pos; eassumption.
  - apply etc_mm_nonneg. eapply KC_STAGE_pos; eassumption.
Qed.

(** X12: in a run that returns, the status is NeedsWater exactly when the
    deficit is positive; under any other status the deficit is 0 and the
    litres are the crop evapotranspiration times the area. *)
Theorem status_matches_deficit (inp : Inputs) (clock : nat -> datetime)
    (g g' : rng) (out : Output) :
  script inp clock g = Ok (out, g') ->
  (out_status out = NeedsWater <-> 0 < out_deficit_mm out)
  /\ (out_status out <> NeedsWater ->
      out_deficit_mm out = 0
      /\ out_liters out = out_etc_mm out * out_area_m2 out).
Proof.
  intros Hrun.
  destruct (script_inv _ _ _ _ _ Hrun)
    as (vwc & g1 & low & high & raw & root & kc & dates & rows
        & _ & _ & Hraw & Hroot & Hkc & _ & ->).
  cbn [out_status out_deficit_mm out_liters out_etc_mm out_area_m2].
  pose proof (SOIL_RAW_MM_PER_M_pos _ _ Hraw) as Hraw_pos.
  pose proof (ROOT_DEPTH_M_pos _ _ Hroot) as Hroot_pos.
  pose proof (KC_STAGE_pos _ _ Hkc) as Hkc_pos.
  pose proof (deficit_denominator_pos low) as Hden.
  pose proof (etc_mm_nonneg kc (in_tmin inp) (in_tmax inp) Hkc_pos) as Hetc.
  unfold classify. destruct (Rlt_dec vwc low) as [Hdry | Hmoist].
  - rewrite (Rmax_left (low - vwc) 0) by lra.
    split; [| intros Hne; contradiction Hne; reflexivity].
    split; [intros _ | reflexivity].
    apply Rmult_lt_0_compat; [| exact Hroot_pos].
    apply Rmult_lt_0_compat; [| exact Hraw_pos].
    apply Rmult_lt_0_compat; [lra | apply Rinv_0_lt_compat; exact Hden].
  - rewrite (Rmax_right (low - vwc) 0) by lra.
    replace (0 / Rmax low 1e-6 * IZR raw * root) with 0
      by (unfold Rdiv; ring).
    assert (forall s : Status,
              (if Rgt_dec vwc high then Sufficient else Monitor) = s ->
              s <> NeedsWater) as Hother.
    { intros s <-. destruct (Rgt_dec vwc high); discriminate. }
    split.
    + split; [intros Heq; exfalso; exact (Hother _ eq_refl Heq) | lra].
    + intros _. split; [reflexivity |].
      rewrite Rplus_0_l, (Rmax_right 0 _) by exact Hetc. reflexivity.
Qed.

(** X13: every row of the plan holds values within 0.005 of
    kc * eto_i and kc * eto_i * area_m2; its ETc is not negative, and its
    litres are not negative when the area is not. *)
Theorem plan_rows_rounding (stage : string) (kc tmin tmax area_m2 : R)
    (clock : nat -> datetime) (g : rng) :
  KC_STAGE !! stage = Some kc ->
  clock_in_range clock ->
  exists dates rows g',
    planner stage tmin tmax area_m2 clock g = Ok (dates, rows, g')
    /\ forall i, (i < 7)%nat ->
       exists row,
         rows !! i = Some row
         /\ Rabs (row_etc_mm row - kc * day_eto tmin tmax g i) <= 0.005
         /\ Rabs (row_liters row - kc * day_eto tmin tmax g i * area_m2)
            <= 0.005
         /\ 0 <= row_etc_mm row
         /\ (0 <= area_m2 -> 0 <= row_liters row).
Proof.
  intros Hkc Hclock. do 3 eexists.
  split; [apply (planner_in_range stage kc); assumption |].
  intros i Hi.
  destruct (seven_lookup (reading_date clock)
                         (plan_row kc tmin tmax area_m2 g) i Hi) as [_ Hrow].
  eexists. split; [exact Hrow |].
  cbn [plan_row row_etc_mm row_liters].
  pose proof (KC_STAGE_pos _ _ Hkc) as Hkc_pos.
  assert (0 <= kc * day_eto tmin tmax g i) as Hetc.
  { apply Rmult_le_pos; [lra | apply Rmax_l]. }
  split; [apply py_round2_near |].
  split; [apply py_round2_near |].
  split; [apply py_round2_nonneg; exact Hetc |].
  intros Harea. apply py_round2_nonneg. apply Rmult_le_pos; assumption.
Qed.

(** X14: a run that returns leaves NumPy's generator exactly fourteen
    uniform draws past the state it read the moisture in: the state before
    the run in manual mode, the state after reseeding and one normal draw
    in simulation mode. *)
Theorem script_draws_fourteen (inp : Inputs) (clock : nat -> datetime)
    (g g' : rng) (out : Output) :
  script inp clock g = Ok (out, g') ->
  g' = after_draws 14
         match in_mode inp with
         | Manual _ => g
         | Simulate seed => snd (normal 0.16 0.03 (seeded seed))
         end.
Proof.
  intros Hrun.
  destruct (script_inv _ _ _ _ _ Hrun)
    as (vwc & g1 & low & high & raw & root & kc & dates & rows
        & Hread & _ & _ & _ & Hkc & Hplan & _).
  destruct (planner_inv _ _ _ _ _ _ _ _ _ _ Hkc Hplan) as (_ & _ & ->).
  f_equal. destruct (in_mode inp) as [v | seed].
  - injection Hread as _ <-. reflexivity.
  - unfold read_vwc, np_random_seed in Hread.
    destruct ((0 <=? seed) && (seed <? 2 ^ 32))%Z; [| discriminate Hread].
    cbn [mbind result_bind] in Hread.
    destruct (normal 0.16 0.03 (seeded seed)) as [x g0].
    injection Hread as _ <-. reflexivity.
Qed.

(** X15: over any list of dates the loop appends one row per date, in
    order, each showing its own date, and draws two uniform numbers per
    date; with a stage that has no crop coefficient it raises KeyError at
    the first date and does nothing on an empty list. *)
Theorem plan_loop_aligned (stage : string) (tmin tmax area_m2 : R)
    (dates : list datetime) (g : rng) :
  (forall kc, KC_STAGE !! stage = Some kc ->
     exists rows,
       plan_loop stage tmin tmax area_m2 dates g
       = Ok (rows, after_draws (2 * length dates) g)
       /\ map row_date rows = map strftime_dmY dates)
  /\ (KC_STAGE !! stage = None ->
      plan_loop stage tmin tmax area_m2 dates g
      = match dates with
        | [] => Ok ([], g)
        | _ :: _ => Raise KeyError
        end).
Proof.
  split.
  - intros kc Hkc. eexists.
    split; [apply (plan_loop_rows stage kc); exact Hkc |].
    apply row_dates_imap. reflexivity.
  - intros Hkc. destruct dates as [| d dates]; [reflexivity |].
    cbn [plan_loop].
    destruct (uniform (-1) 1 g) as [j1 g1].
    destruct (uniform (-1) 1 g1) as [j2 g2].
    rewrite simple_eto_mm_per_day_eq. cbn [mbind result_bind].
    rewrite (dict_get_None _ _ Hkc). reflexivity.
Qed.

(** X16: when the moisture reading succeeds, a soil type that is not a key
    of SOIL_TARGET_RANGE or a stage that is not a key of ROOT_DEPTH_M makes
    the run raise KeyError. *)
Theorem script_unknown_key (inp : Inputs) (clock : nat -> datetime)
    (g g1 : rng) (vwc : R) :
  read_vwc (in_mode inp) g = Ok (vwc, g1) ->
  in_soil_type inp ∉ dom SOIL_TARGET_RANGE
  \/ in_stage inp ∉ dom ROOT_DEPTH_M ->
  script inp clock g = Raise KeyError.
Proof.
  intros Hread Hout. unfold script. rewrite Hread. cbn [mbind result_bind].
  destruct (SOIL_TARGET_RANGE !! in_soil_type inp) as [[low high] |] eqn:Hrange.
  - rewrite (dict_get_Some _ _ _ Hrange). cbn [mbind result_bind].
    rewrite irrigation_need_liters_KeyError; [reflexivity |].
    destruct Hout as [Hsoil | Hstage]; [| right; exact Hstage].
    exfalso. apply Hsoil, elem_of_dom. eauto.
  - rewrite (dict_get_None _ _ Hrange). reflexivity.
Qed.

End WholeScript.

(** *** Concrete runs of the script *)

Lemma seed_42_accepted : (0 <= 42 < 2 ^ 32)%Z.
Proof. split; [lia | reflexivity]. Qed.

Lemma sample_run :
  exists out g',
    script (RS := counting_random) (sample_inputs (Manual 0.16))
           sample_clock 0%nat
    = Ok (out, g').
Proof.
  do 2 eexists.
  apply (script_eq (RS := counting_random) (sample_inputs (Manual 0.16))
           sample_clock 0%nat 0%nat 0.16 0.18 0.28 0.6 0.95 90);
    try reflexivity.
  exact sample_clock_in_range.
Qed.

Lemma simulated_vwc_clipped_witness :
  (0 <= 42 < 2 ^ 32)%Z
  /\ exists vwc,
       0 <= vwc <= 0.6
       /\ forall g : nat,
            read_vwc (RS := counting_random) (Simulate 42) g
            = Ok (vwc, snd (normal (RandomState := counting_random)
                                   0.16 0.03
                                   (seeded (RandomState := counting_random)
                                           42))).
Proof.
  split; [exact seed_42_accepted |].
  apply (simulated_vwc_clipped (RS := counting_random)).
  exact seed_42_accepted.
Defined.

Lemma script_returns_witness :
  exists out g',
    script (RS := counting_random) (sample_inputs (Simulate 42))
           sample_clock 0%nat
    = Ok (out, g')
    /\ length (out_dates out) = 7%nat
    /\ length (out_plan_data out) = 7%nat.
Proof.
  apply (script_returns (RS := counting_random)).
  - key_in_table.
  - key_in_table.
  - exact seed_42_accepted.
  - exact sample_clock_in_range.
Defined.

Lemma script_outputs_nonneg_witness :
  exists out g',
    script (RS := counting_random) (sample_inputs (Manual 0.16))
           sample_clock 0%nat
    = Ok (out, g')
    /\ 0 <= in_area_value (sample_inputs (Manual 0.16))
    /\ 0 <= out_area_m2 out
    /\ 0 <= out_liters out
    /\ 0 <= out_deficit_mm out
    /\ 0 <= out_etc_mm out.
Proof.
  destruct sample_run as (out & g' & Hrun).
  assert (0 <= in_area_value (sample_inputs (Manual 0.16))) as Harea
    by (cbn; lra).
  exists out, g'. split; [exact Hrun |]. split; [exact Harea |].
  exact (script_outputs_nonneg (RS := counting_random) _ _ _ _ _ Hrun Harea).
Defined.

Lemma status_matches_deficit_witness :
  exists out g',
    script (RS := counting_random) (sample_inputs (Manual 0.16))
           sample_clock 0%nat
    = Ok (out, g')
    /\ (out_status out = NeedsWater <-> 0 < out_deficit_mm out)
    /\ (out_status out <> NeedsWater ->
        out_deficit_mm out = 0
        /\ out_liters out = out_etc_mm out * out_area_m2 out).
Proof.
  destruct sample_run as (out & g' & Hrun).
  exists out, g'. split; [exact Hrun |].
  exact (status_matches_deficit (RS := counting_random) _ _ _ _ _ Hrun).
Defined.

Lemma plan_rows_rounding_witness :
  exists dates rows g',
    planner (RS := counting_random) "वनस्पति अवस्था" 22 33 1000
            sample_clock 0%nat
    = Ok (dates, rows, g')
    /\ forall i, (i < 7)%nat ->
       exists row,
         rows !! i = Some row
         /\ Rabs (row_etc_mm row
                  - 0.95 * day_eto (RS := counting_random) 22 33 0%nat i)
            <= 0.005
         /\ Rabs (row_liters row
                  - 0.95 * day_eto (RS := counting_random) 22 33 0%nat i
                    * 1000)
            <= 0.005
         /\ 0 <= row_etc_mm row
         /\ (0 <= 1000 -> 0 <= row_liters row).
Proof.
  apply (plan_rows_rounding (RS := counting_random)).
  - reflexivity.
  - exact sample_clock_in_range.
Defined.

Lemma script_draws_fourteen_witness :
  exists out g',
    script (RS := counting_random) (sample_inputs (Manual 0.16))
           sample_clock 0%nat
    = Ok (out, g')
    /\ g' = after_draws (RS := counting_random) 14 0%nat.
Proof.
  destruct sample_run as (out & g' & Hrun).
  exists out, g'. split; [exact Hrun |].
  exact (script_draws_fourteen (RS := counting_random) _ _ _ _ _ Hrun).
Defined.

Lemma plan_loop_aligned_witness :
  (KC_STAGE !! "फल आने की अवस्था" = Some 0.9
   /\ exists rows,
        plan_loop (RS := counting_random) "फल आने की अवस्था" 22 33 1000
                  [mk_datetime 739924 0; mk_datetime 739925 0] 0%nat
        = Ok (rows, after_draws (RS := counting_random) (2 * 2) 0%nat)
        /\ map row_date rows
           = map strftime_dmY [mk_datetime 739924 0; mk_datetime 739925 0])
  /\ (KC_STAGE !! "harvest" = None
      /\ plan_loop (RS := counting_random) "harvest" 22 33 1000
                   [mk_datetime 739924 0] 0%nat
         = Raise KeyError)
  /\ plan_loop (RS := counting_random) "harvest" 22 33 1000 [] 0%nat
     = Ok ([], 0%nat).
Proof.
  split; [| split].
  - split; [reflexivity |].
    apply (proj1 (plan_loop_aligned (RS := counting_random)
                    "फल आने की अवस्था" 22 33 1000
                    [mk_datetime 739924 0; mk_datetime 739925 0] 0%nat)
                 0.9).
    reflexivity.
  - split; [reflexivity |].
    apply (proj2 (plan_loop_aligned (RS := counting_random)
                    "harvest" 22 33 1000 [mk_datetime 739924 0] 0%nat)).
    reflexivity.
  - apply (proj2 (plan_loop_aligned (RS := counting_random)
                    "harvest" 22 33 1000 [] 0%nat)).
    reflexivity.
Defined.

Lemma script_unknown_key_witness :
  script (RS := counting_random)
         (mk_inputs "टमाटर" "black cotton" 0.25 "एकड़" "वनस्पति अवस्था"
                    22 33 (Manual 0.16))
         sample_clock 0%nat
  = Raise KeyError
  /\ script (RS := counting_random)
            (mk_inputs "टमाटर" "दोमट (Loam)" 0.25 "एकड़" "harvest"
                       22 33 (Manual 0.16))
            sample_clock 0%nat
     = Raise KeyError.
Proof.
  split.
  - apply (script_unknown_key (RS := counting_random) _ _ 0%nat 0%nat 0.16).
    + reflexivity.
    + left. key_not_in_table.
  - apply (script_unknown_key (RS := counting_random) _ _ 0%nat 0%nat 0.16).
    + reflexivity.
    + right. key_not_in_table.
Defined.

(** ** The plan of a run across midnight *)

Lemma midnight_clock_in_range : clock_in_range midnight_clock.
Proof.
  intros i Hi. unfold MAXORDINAL.
  destruct i as [| i]; cbn [midnight_clock toordinal]; lia.
Qed.

(** C3: the claim asks for seven rows on consecutive calendar dates that
    start on the day of the invocation.  The list of dates reads
    [datetime.today()] once per element, so in a run whose first reading
    is taken just before midnight of 04-11-2026 and whose later readings
    are taken just after it, the planner still returns seven dates and
    seven rows, but they are 04-11, 06-11, 07-11, ..., 11-11-2026: the
    second date is two days after the first and 05-11-2026 is missing. *)
Theorem planner_dates_across_midnight :
  exists (dates : list datetime) (rows : list PlanRow) (g' : nat),
    planner (RS := counting_random) "वनस्पति अवस्था" 22 33 1000
            midnight_clock 0%nat
    = Ok (dates, rows, g')
    /\ length dates = 7%nat
    /\ length rows = 7%nat
    /\ map toordinal dates
       = [739924; 739926; 739927; 739928; 739929; 739930; 739931]%Z
    /\ map row_date rows
       = ["04-11-2026"; "06-11-2026"; "07-11-2026"; "08-11-2026";
          "09-11-2026"; "10-11-2026"; "11-11-2026"]
    /\ ~ (forall i d d',
           dates !! i = Some d -> dates !! S i = Some d' ->
           toordinal d' = (toordinal d + 1)%Z).
Proof.
  do 3 eexists. split.
  { apply (planner_in_range (RS := counting_random) "वनस्पति अवस्था" 0.95).
    - reflexivity.
    - exact midnight_clock_in_range. }
  split; [reflexivity |]. split; [reflexivity |]. split; [reflexivity |].
  split.
  - rewrite row_dates_imap by reflexivity. vm_compute. reflexivity.
  - intros Hnext.
    specialize (Hnext 0%nat (reading_date midnight_clock 0)
                      (reading_date midnight_clock 1) eq_refl eq_refl).
    cbn in Hnext. discriminate Hnext.
Qed.
